(** * ShaderGen: the shader-source generator of [src/core/shadergen.cpp]

    A shallow embedding of the generator: the [std::stringstream] sink is a
    [string] that is only ever appended to, machine integers are [Z] with
    their wrap-around written out, and the two ways a call can fail to
    return normally ([Assert] and undefined behaviour inside the C
    library) are the extra constructors of [outcome]. *)

From Stdlib Require Import ZArith Lia List Bool Ascii String.
Import ListNotations.

Open Scope string_scope.
Open Scope Z_scope.

(** * Part I: the embedding *)

(** ** Text *)

Module Text.

Definition LF : ascii := "010"%char.
Definition nl : string := String LF "".

(** Every character of [s] passes the test [p]. *)
Fixpoint all_chars (p : ascii -> bool) (s : string) : bool :=
  match s with
  | "" => true
  | String c s' => p c && all_chars p s'
  end.

(** [contains pat s]: [pat] occurs somewhere in [s]. *)
Fixpoint contains (pat s : string) : bool :=
  prefix pat s ||
  match s with
  | "" => false
  | String _ s' => contains pat s'
  end.

(** The lines of a text: the pieces between line feeds. *)
Fixpoint lines_from (cur : string) (s : string) : list string :=
  match s with
  | "" => [cur]
  | String c s' =>
      if Ascii.eqb c LF then cur :: lines_from "" s'
      else lines_from (cur ++ String c "") s'
  end.

Definition lines (s : string) : list string := lines_from "" s.

Definition not_LF (c : ascii) : bool := negb (Ascii.eqb c LF).

End Text.

Import Text.

(** ** Outcomes

    A call either returns, or stops at a failed [Assert] (which reports the
    violation and aborts the process), or runs into behaviour the C
    standard leaves undefined. *)

Inductive outcome (A : Type) : Type :=
| Returned (a : A)
| AssertFailed
| Undefined.

Arguments Returned {A} a.
Arguments AssertFailed {A}.
Arguments Undefined {A}.

Definition bind {A B : Type} (m : outcome A) (k : A -> outcome B) : outcome B :=
  match m with
  | Returned a => k a
  | AssertFailed => AssertFailed
  | Undefined => Undefined
  end.

Notation "x <- m ;; k" := (bind m (fun x => k))
  (at level 61, m at next level, right associativity).
Notation "' pat <- m ;; k" := (bind m (fun x => match x with pat => k end))
  (at level 61, pat pattern, m at next level, right associativity).

(** Modelled from the spec: [Assert] of common/assert.h (not under src/) is
    the fatal, contract-violation kind of error; the call does not return. *)
Definition Assert (cond : bool) : outcome unit :=
  if cond then Returned tt else AssertFailed.

(** ** The C library calls the generator makes *)

Module CLib.

Definition INT_MIN : Z := - 2 ^ 31.
Definition INT_MAX : Z := 2 ^ 31 - 1.
Definition in_int (v : Z) : bool := (INT_MIN <=? v) && (v <=? INT_MAX).

Definition code (c : ascii) : Z := Z.of_N (N_of_ascii c).

(** ['0' <= c && c <= '9'] *)
Definition isdigit (c : ascii) : bool := (48 <=? code c) && (code c <=? 57).

(** [isspace] in the C locale: space, \t, \n, \v, \f, \r. *)
Definition isspace (c : ascii) : bool :=
  (code c =? 32) || ((9 <=? code c) && (code c <=? 13)).

Fixpoint skip_space (s : string) : string :=
  match s with
  | String c s' => if isspace c then skip_space s' else s
  | "" => ""
  end.

(** The longest run of decimal digits at the front of [s], as a number
    continuing [acc], and what follows it. *)
Fixpoint scan_digits (s : string) (acc : Z) : Z * string :=
  match s with
  | String c s' =>
      if isdigit c then scan_digits s' (acc * 10 + (code c - 48))
      else (acc, s)
  | "" => (acc, "")
  end.

(** One [%d] conversion. *)
Inductive conversion : Type :=
| ConvInt (v : Z) (rest : string)   (* a value was assigned *)
| ConvMismatch                      (* matching failure *)
| ConvEOF                           (* input failure: end of input *)
| ConvOverflow.                     (* the value does not fit an [int] *)

Definition first_is_digit (s : string) : bool :=
  match s with
  | String c _ => isdigit c
  | "" => false
  end.

Definition scan_d (s : string) : conversion :=
  match skip_space s with
  | "" => ConvEOF
  | String c s' as s0 =>
      let '(negative, body) :=
        if Ascii.eqb c "-" then (true, s')
        else if Ascii.eqb c "+" then (false, s')
        else (false, s0) in
      if first_is_digit body then
        let '(v, rest) := scan_digits body 0 in
        let v := if negative then - v else v in
        if in_int v then ConvInt v rest else ConvOverflow
      else ConvMismatch
  end.

(** [std::sscanf(s, "%d.%d", &major, &minor)]: the return value and the
    two variables afterwards.  The return value is the number of
    assignments, or [EOF] (-1) when the input ends before the first
    conversion.  A value outside [int] is undefined behaviour. *)
Definition sscanf_d_dot_d (s : string) (major minor : Z)
  : outcome (Z * Z * Z) :=
  match scan_d s with
  | ConvEOF => Returned (-1, major, minor)
  | ConvMismatch => Returned (0, major, minor)
  | ConvOverflow => Undefined
  | ConvInt v rest =>
      match rest with
      | String c rest' =>
          if Ascii.eqb c "." then
            match scan_d rest' with
            | ConvInt w _ => Returned (2, v, w)
            | ConvOverflow => Undefined
            | ConvMismatch | ConvEOF => Returned (1, v, minor)
            end
          else Returned (1, v, minor)
      | "" => Returned (1, v, minor)
      end
  end.

Definition digit_char (d : Z) : ascii := ascii_of_N (Z.to_N (48 + d)).

(** The decimal digits of [n >= 0], most significant first, in front of
    [acc].  Ten digits are enough for every 32-bit value. *)
Fixpoint utoa (fuel : nat) (n : Z) (acc : string) : string :=
  match fuel with
  | O => acc
  | S fuel' =>
      let acc' := String (digit_char (n mod 10)) acc in
      if n <? 10 then acc' else utoa fuel' (n / 10) acc'
  end.

(** [%u] of a [u32], which is also how a stream prints one. *)
Definition fmt_u (n : Z) : string := utoa 10 n "".

(** [%d] of an [int]. *)
Definition fmt_d (n : Z) : string :=
  if n <? 0 then "-" ++ fmt_u (- n) else fmt_u n.

(** [%02d]: [%d], with zeros on the left up to a width of two. *)
Definition fmt_02d (n : Z) : string :=
  let s := fmt_d n in
  if (String.length s <? 2)%nat then "0" ++ s else s.

(** [std::snprintf(buf, size, ...)] keeps at most [size - 1] characters
    of the formatted text. *)
Definition snprintf (size : nat) (formatted : string) : string :=
  substring 0 (size - 1) formatted.

End CLib.

Import CLib.

(** ** The generator *)

(** Modelled from the spec: [HostDisplay::RenderAPI] is declared outside
    src/; the spec's Backend has exactly these four values, and they are the
    four the source names. *)
Inductive RenderAPI : Type := D3D11 | Vulkan | OpenGL | OpenGLES.

(** [==] on [RenderAPI]. *)
Definition RenderAPI_eqb (a b : RenderAPI) : bool :=
  match a, b with
  | D3D11, D3D11 | Vulkan, Vulkan | OpenGL, OpenGL | OpenGLES, OpenGLES => true
  | _, _ => false
  end.

(** What the generator reads from the GL loader and driver: the value of
    [glGetString(GL_SHADING_LANGUAGE_VERSION)] ([None] is the null pointer)
    and the loader's feature flags.  A string stands for the characters in
    front of the terminating NUL. *)
Record GLState : Type := {
  glGetString_SHADING_LANGUAGE_VERSION : option string;
  GLAD_GL_VERSION_3_2 : bool;
  GLAD_GL_VERSION_4_2 : bool;
  GLAD_GL_VERSION_4_3 : bool;
  GLAD_GL_ES_VERSION_3_1 : bool;
  GLAD_GL_ES_VERSION_3_2 : bool;
  GLAD_GL_ARB_explicit_attrib_location : bool;
  GLAD_GL_ARB_explicit_uniform_location : bool;
  GLAD_GL_ARB_shading_language_420pack : bool;
  GLAD_GL_ARB_shader_storage_buffer_object : bool;
  GLAD_GL_EXT_blend_func_extended : bool;
  (** the constructor leaves [m_use_glsl_binding_layout] unassigned when
      the dialect is not GLSL; this is whatever the member then holds *)
  unassigned_binding_layout : bool
}.

(** The members of [ShaderGen]. *)
Record ShaderGen : Type := {
  m_render_api : RenderAPI;
  m_glsl : bool;
  m_supports_dual_source_blend : bool;
  m_use_glsl_interface_blocks : bool;
  m_use_glsl_binding_layout : bool;
  m_glsl_version_string : string
}.

(** Assignments to one member. *)
Definition set_interface_blocks (b : bool) (g : ShaderGen) : ShaderGen :=
  {| m_render_api := m_render_api g; m_glsl := m_glsl g;
     m_supports_dual_source_blend := m_supports_dual_source_blend g;
     m_use_glsl_interface_blocks := b;
     m_use_glsl_binding_layout := m_use_glsl_binding_layout g;
     m_glsl_version_string := m_glsl_version_string g |}.

Definition set_binding_layout (b : bool) (g : ShaderGen) : ShaderGen :=
  {| m_render_api := m_render_api g; m_glsl := m_glsl g;
     m_supports_dual_source_blend := m_supports_dual_source_blend g;
     m_use_glsl_interface_blocks := m_use_glsl_interface_blocks g;
     m_use_glsl_binding_layout := b;
     m_glsl_version_string := m_glsl_version_string g |}.

Definition set_version_string (s : string) (g : ShaderGen) : ShaderGen :=
  {| m_render_api := m_render_api g; m_glsl := m_glsl g;
     m_supports_dual_source_blend := m_supports_dual_source_blend g;
     m_use_glsl_interface_blocks := m_use_glsl_interface_blocks g;
     m_use_glsl_binding_layout := m_use_glsl_binding_layout g;
     m_glsl_version_string := s |}.

(** The error channel of the log: the messages, oldest first. *)
Definition log : Type := list string.

(** Modelled from the spec: [IsVulkan] is defined inline in shadergen.h. *)
Definition IsVulkan (g : ShaderGen) : bool :=
  RenderAPI_eqb (m_render_api g) Vulkan.

(** Modelled from the spec: [BoolToUInt32] of common/types.h, the integer
    value of a [bool]. *)
Definition BoolToUInt32 (b : bool) : Z := if b then 1 else 0.

(** Arithmetic on [u32] is modulo this. *)
Definition UINT32_MOD : Z := 2 ^ 32.

(** [ShaderGen::UseGLSLBindingLayout], lines 24-29. *)
Definition UseGLSLBindingLayout (gl : GLState) : bool :=
  GLAD_GL_ES_VERSION_3_1 gl || GLAD_GL_VERSION_4_2 gl ||
  (GLAD_GL_ARB_explicit_attrib_location gl &&
   GLAD_GL_ARB_explicit_uniform_location gl &&
   GLAD_GL_ARB_shading_language_420pack gl).

(** The loop of lines 43-45, which skips any text in front of the version
    code; it stops at the first digit or at the end of the string. *)
Fixpoint skip_to_digit (s : string) : string :=
  match s with
  | String c s' => if isdigit c then s else skip_to_digit s'
  | "" => ""
  end.

(** The cap of lines 51-60, applied to a version that [sscanf] read in
    full. *)
Definition cap_version (glsl_es : bool) (major minor : Z) : Z * Z :=
  if negb glsl_es && ((major >? 4) || ((major =? 4) && (minor >? 30)))
  then (4, 30)
  else if glsl_es && ((major >? 3) || ((major =? 3) && (minor >? 20)))
  then (3, 20)
  else (major, minor).

(** The [snprintf] of lines 73-75 into the 128-byte buffer. *)
Definition version_directive (glsl_es : bool) (major minor : Z) : string :=
  snprintf 128
    ("#version " ++ fmt_d major ++ fmt_02d minor ++
     (if glsl_es && (major >=? 3) then " es" else "")).

(** [ShaderGen::SetGLSLVersionString], lines 36-77: the new state of the
    generator and what was logged. *)
Definition SetGLSLVersionString (gl : GLState) (this : ShaderGen)
  : outcome (ShaderGen * log) :=
  let glsl_version := glGetString_SHADING_LANGUAGE_VERSION gl in
  let glsl_es := RenderAPI_eqb (m_render_api this) OpenGLES in
  match glsl_version with
  | None => AssertFailed
  | Some glsl_version =>
      let glsl_version_start := skip_to_digit glsl_version in
      '(assigned, major_version, minor_version) <-
        sscanf_d_dot_d glsl_version_start 0 0 ;;
      let '(major_version, minor_version, this, lg) :=
        if assigned =? 2 then
          let '(major_version, minor_version) :=
            cap_version glsl_es major_version minor_version in
          (major_version, minor_version, this, [])
        else
          let lg :=
            ["Invalid GLSL version string: '" ++ glsl_version ++ "' ('" ++
             glsl_version_start ++ "')"] in
          let '(major_version, minor_version) :=
            if glsl_es then (3, 0) else (major_version, minor_version) in
          (major_version, minor_version,
           set_version_string (if glsl_es then "300" else "130") this, lg) in
      Returned
        (set_version_string
           (version_directive glsl_es major_version minor_version) this,
         lg)
  end.

(** The constructor [ShaderGen::ShaderGen], lines 8-20. *)
Definition new_ShaderGen (gl : GLState) (render_api : RenderAPI)
    (supports_dual_source_blend : bool) : outcome (ShaderGen * log) :=
  let this :=
    {| m_render_api := render_api;
       m_glsl := negb (RenderAPI_eqb render_api D3D11);
       m_supports_dual_source_blend := supports_dual_source_blend;
       m_use_glsl_interface_blocks := false;
       m_use_glsl_binding_layout := unassigned_binding_layout gl;
       m_glsl_version_string := "" |} in
  if m_glsl this then
    '(this, lg) <-
      (if RenderAPI_eqb (m_render_api this) OpenGL ||
          RenderAPI_eqb (m_render_api this) OpenGLES
       then SetGLSLVersionString gl this
       else Returned (this, [])) ;;
    let this :=
      set_interface_blocks
        (IsVulkan this || GLAD_GL_ES_VERSION_3_2 gl || GLAD_GL_VERSION_3_2 gl)
        this in
    let this :=
      set_binding_layout (IsVulkan this || UseGLSLBindingLayout gl) this in
    Returned (this, lg)
  else Returned (this, []).

(** *** Writing to the sink

    [ss << x] appends to the stream; a [u32] is printed in decimal. *)

Definition stream : Type := string.

Declare Scope stream_scope.
Delimit Scope stream_scope with stream.
Notation "ss << x" := (String.append ss x)
  (at level 50, left associativity) : stream_scope.
Open Scope stream_scope.

(** [for (u32 i = 0; i < n; i++) body] *)
Definition for_u32 {S : Type} (n : Z) (body : Z -> S -> S) (s : S) : S :=
  fold_left (fun s i => body (Z.of_nat i) s) (seq 0 (Z.to_nat n)) s.

(** [ShaderGen::DefineMacro], lines 31-34. *)
Definition DefineMacro (ss : stream) (name : string) (enabled : bool) : stream :=
  ss << "#define " << name << " " << fmt_u (BoolToUInt32 enabled) << nl.

(** [ShaderGen::WriteHeader], lines 79-197.  The loader's flags are read
    when the header is written. *)
Definition WriteHeader (gl : GLState) (this : ShaderGen) (ss : stream) : stream :=
  let api := m_render_api this in
  let ss :=
    if RenderAPI_eqb api OpenGL || RenderAPI_eqb api OpenGLES
    then ss << m_glsl_version_string this << nl << nl
    else if RenderAPI_eqb api Vulkan
    then ss << "#version 450 core" << nl << nl
    else ss in
  let ss :=
    if RenderAPI_eqb api OpenGLES then
      if GLAD_GL_EXT_blend_func_extended gl
      then ss << "#extension GL_EXT_blend_func_extended : require" << nl
      else ss
    else if RenderAPI_eqb api OpenGL then
      let ss :=
        if m_use_glsl_binding_layout this && negb (GLAD_GL_VERSION_4_3 gl)
        then ss << "#extension GL_ARB_explicit_attrib_location : require" << nl
                << "#extension GL_ARB_explicit_uniform_location : require" << nl
                << "#extension GL_ARB_shading_language_420pack : require" << nl
        else ss in
      let ss :=
        if negb (GLAD_GL_VERSION_3_2 gl)
        then ss << "#extension GL_ARB_uniform_buffer_object : require" << nl
        else ss in
      if negb (GLAD_GL_VERSION_4_3 gl) && negb (GLAD_GL_ES_VERSION_3_1 gl) &&
         GLAD_GL_ARB_shader_storage_buffer_object gl
      then ss << "#extension GL_ARB_shader_storage_buffer_object : require" << nl
      else ss
    else ss in
  let ss := DefineMacro ss "API_OPENGL" (RenderAPI_eqb api OpenGL) in
  let ss := DefineMacro ss "API_OPENGL_ES" (RenderAPI_eqb api OpenGLES) in
  let ss := DefineMacro ss "API_D3D11" (RenderAPI_eqb api D3D11) in
  let ss := DefineMacro ss "API_VULKAN" (RenderAPI_eqb api Vulkan) in
  let ss :=
    if RenderAPI_eqb api OpenGLES then
      let ss := ss << "precision highp float;" << nl
                   << "precision highp int;" << nl
                   << "precision highp sampler2D;" << nl in
      let ss :=
        if GLAD_GL_ES_VERSION_3_2 gl
        then ss << "precision highp usamplerBuffer;" << nl
        else ss in
      ss << nl
    else ss in
  let ss :=
    if m_glsl this then
      ss << "#define GLSL 1" << nl
         << "#define float2 vec2" << nl
         << "#define float3 vec3" << nl
         << "#define float4 vec4" << nl
         << "#define int2 ivec2" << nl
         << "#define int3 ivec3" << nl
         << "#define int4 ivec4" << nl
         << "#define uint2 uvec2" << nl
         << "#define uint3 uvec3" << nl
         << "#define uint4 uvec4" << nl
         << "#define float2x2 mat2" << nl
         << "#define float3x3 mat3" << nl
         << "#define float4x4 mat4" << nl
         << "#define mul(x, y) ((x) * (y))" << nl
         << "#define nointerpolation flat" << nl
         << "#define frac fract" << nl
         << "#define lerp mix" << nl
         << "#define CONSTANT const" << nl
         << "#define VECTOR_EQ(a, b) ((a) == (b))" << nl
         << "#define VECTOR_NEQ(a, b) ((a) != (b))" << nl
         << "#define VECTOR_COMP_EQ(a, b) equal((a), (b))" << nl
         << "#define VECTOR_COMP_NEQ(a, b) notEqual((a), (b))" << nl
         << "#define SAMPLE_TEXTURE(name, coords) texture(name, coords)" << nl
         << "#define LOAD_TEXTURE(name, coords, mip) texelFetch(name, coords, mip)" << nl
         << "#define LOAD_TEXTURE_OFFSET(name, coords, mip, offset) texelFetchOffset(name, coords, mip, offset)" << nl
         << "#define LOAD_TEXTURE_BUFFER(name, index) texelFetch(name, index)" << nl
         << "#define BEGIN_ARRAY(type, size) type[size](" << nl
         << "#define END_ARRAY )" << nl
         << "float saturate(float value) { return clamp(value, 0.0, 1.0); }" << nl
         << "float2 saturate(float2 value) { return clamp(value, float2(0.0, 0.0), float2(1.0, 1.0)); }" << nl
         << "float3 saturate(float3 value) { return clamp(value, float3(0.0, 0.0, 0.0), float3(1.0, 1.0, 1.0)); }" << nl
         << "float4 saturate(float4 value) { return clamp(value, float4(0.0, 0.0, 0.0, 0.0), float4(1.0, 1.0, 1.0, 1.0)); }" << nl
    else
      ss << "#define HLSL 1" << nl
         << "#define roundEven round" << nl
         << "#define mix lerp" << nl
         << "#define fract frac" << nl
         << "#define vec2 float2" << nl
         << "#define vec3 float3" << nl
         << "#define vec4 float4" << nl
         << "#define ivec2 int2" << nl
         << "#define ivec3 int3" << nl
         << "#define ivec4 int4" << nl
         << "#define uivec2 uint2" << nl
         << "#define uivec3 uint3" << nl
         << "#define uivec4 uint4" << nl
         << "#define mat2 float2x2" << nl
         << "#define mat3 float3x3" << nl
         << "#define mat4 float4x4" << nl
         << "#define CONSTANT static const" << nl
         << "#define VECTOR_EQ(a, b) (all((a) == (b)))" << nl
         << "#define VECTOR_NEQ(a, b) (any((a) != (b)))" << nl
         << "#define VECTOR_COMP_EQ(a, b) ((a) == (b))" << nl
         << "#define VECTOR_COMP_NEQ(a, b) ((a) != (b))" << nl
         << "#define SAMPLE_TEXTURE(name, coords) name.Sample(name##_ss, coords)" << nl
         << "#define LOAD_TEXTURE(name, coords, mip) name.Load(int3(coords, mip))" << nl
         << "#define LOAD_TEXTURE_OFFSET(name, coords, mip, offset) name.Load(int3(coords, mip), offset)" << nl
         << "#define LOAD_TEXTURE_BUFFER(name, index) name.Load(index)" << nl
         << "#define BEGIN_ARRAY(type, size) {" << nl
         << "#define END_ARRAY }" << nl in
  ss << nl.

(** [ShaderGen::WriteUniformBufferDeclaration], lines 199-219. *)
Definition WriteUniformBufferDeclaration (this : ShaderGen) (ss : stream)
    (push_constant_on_vulkan : bool) : stream :=
  if IsVulkan this then
    if push_constant_on_vulkan
    then ss << "layout(push_constant) uniform PushConstants" << nl
    else ss << "layout(std140, set = 0, binding = 0) uniform UBOBlock" << nl
  else if m_glsl this then
    if m_use_glsl_binding_layout this
    then ss << "layout(std140, binding = 1) uniform UBOBlock" << nl
    else ss << "layout(std140) uniform UBOBlock" << nl
  else ss << "cbuffer UBOBlock : register(b0)" << nl.

(** [ShaderGen::DeclareUniformBuffer], lines 221-230. *)
Definition DeclareUniformBuffer (this : ShaderGen) (ss : stream)
    (members : list string) (push_constant_on_vulkan : bool) : stream :=
  let ss := WriteUniformBufferDeclaration this ss push_constant_on_vulkan in
  let ss := ss << "{" << nl in
  let ss := fold_left (fun ss member => ss << member << ";" << nl) members ss in
  ss << "};" << nl << nl.

(** [ShaderGen::DeclareTexture], lines 232-248; [index + 1u] wraps at 32
    bits. *)
Definition DeclareTexture (this : ShaderGen) (ss : stream) (name : string)
    (index : Z) : stream :=
  if m_glsl this then
    let ss :=
      if IsVulkan this
      then ss << "layout(set = 0, binding = "
              << fmt_u ((index + 1) mod UINT32_MOD) << ") "
      else if m_use_glsl_binding_layout this
      then ss << "layout(binding = " << fmt_u index << ") "
      else ss in
    ss << "uniform sampler2D " << name << ";" << nl
  else
    ss << "Texture2D " << name << " : register(t" << fmt_u index << ");" << nl
       << "SamplerState " << name << "_ss : register(s" << fmt_u index << ");" << nl.

(** [ShaderGen::DeclareTextureBuffer], lines 250-266. *)
Definition DeclareTextureBuffer (this : ShaderGen) (ss : stream) (name : string)
    (index : Z) (is_int is_unsigned : bool) : stream :=
  if m_glsl this then
    let ss :=
      if IsVulkan this
      then ss << "layout(set = 0, binding = " << fmt_u index << ") "
      else if m_use_glsl_binding_layout this
      then ss << "layout(binding = " << fmt_u index << ") "
      else ss in
    ss << "uniform " << (if is_int then (if is_unsigned then "u" else "i") else "")
       << "samplerBuffer " << name << ";" << nl
  else
    ss << "Buffer<"
       << (if is_int then (if is_unsigned then "uint4" else "int4") else "float4")
       << "> " << name << " : register(t" << fmt_u index << ");" << nl.

(** Modelled from the spec: the default of [output_block_suffix], declared
    in shadergen.h (not under src/).  The fragment stage names the block
    plain [VertexData], so the default suffix is empty. *)
Definition default_output_block_suffix : string := "".

(** [ShaderGen::DeclareVertexEntryPoint], lines 268-359. *)
Definition DeclareVertexEntryPoint (this : ShaderGen) (ss : stream)
    (attributes : list string) (num_color_outputs num_texcoord_outputs : Z)
    (additional_outputs : list (string * string)) (declare_vertex_id : bool)
    (output_block_suffix : string) : stream :=
  if m_glsl this then
    let ss :=
      if m_use_glsl_binding_layout this then
        fst (fold_left
               (fun '(ss, attribute_counter) attribute =>
                  (ss << "layout(location = " << fmt_u attribute_counter
                      << ") in " << attribute << ";" << nl,
                   (attribute_counter + 1) mod UINT32_MOD))
               attributes (ss, 0))
      else
        fold_left (fun ss attribute => ss << "in " << attribute << ";" << nl)
                  attributes ss in
    let ss :=
      if m_use_glsl_interface_blocks this then
        let ss := if IsVulkan this then ss << "layout(location = 0) " else ss in
        let ss := ss << "out VertexData" << output_block_suffix << " {" << nl in
        let ss := for_u32 num_color_outputs
                    (fun i ss => ss << "  float4 v_col" << fmt_u i << ";" << nl) ss in
        let ss := for_u32 num_texcoord_outputs
                    (fun i ss => ss << "  float2 v_tex" << fmt_u i << ";" << nl) ss in
        let ss := fold_left
                    (fun ss '(qualifiers, name) =>
                       ss << "  " << qualifiers << " " << name << ";" << nl)
                    additional_outputs ss in
        ss << "};" << nl
      else
        let ss := for_u32 num_color_outputs
                    (fun i ss => ss << "out float4 v_col" << fmt_u i << ";" << nl) ss in
        let ss := for_u32 num_texcoord_outputs
                    (fun i ss => ss << "out float2 v_tex" << fmt_u i << ";" << nl) ss in
        fold_left
          (fun ss '(qualifiers, name) =>
             ss << qualifiers << " out " << name << ";" << nl)
          additional_outputs ss in
    let ss := ss << "#define v_pos gl_Position" << nl << nl in
    let ss :=
      if declare_vertex_id then
        if IsVulkan this
        then ss << "#define v_id uint(gl_VertexIndex)" << nl
        else ss << "#define v_id uint(gl_VertexID)" << nl
      else ss in
    let ss := ss << nl in
    ss << "void main()" << nl
  else
    let ss := ss << "void main(" << nl in
    let ss :=
      if declare_vertex_id
      then ss << "  in uint v_id : SV_VertexID," << nl
      else ss in
    let ss :=
      fst (fold_left
             (fun '(ss, attribute_counter) attribute =>
                (ss << "  in " << attribute << " : ATTR"
                    << fmt_u attribute_counter << "," << nl,
                 (attribute_counter + 1) mod UINT32_MOD))
             attributes (ss, 0)) in
    let ss := for_u32 num_color_outputs
                (fun i ss => ss << "  out float4 v_col" << fmt_u i
                                << " : COLOR" << fmt_u i << "," << nl) ss in
    let ss := for_u32 num_texcoord_outputs
                (fun i ss => ss << "  out float2 v_tex" << fmt_u i
                                << " : TEXCOORD" << fmt_u i << "," << nl) ss in
    let ss :=
      fst (fold_left
             (fun '(ss, additional_counter) '(qualifiers, name) =>
                (ss << "  " << qualifiers << " out " << name << " : TEXCOORD"
                    << fmt_u additional_counter << "," << nl,
                 (additional_counter + 1) mod UINT32_MOD))
             additional_outputs (ss, num_texcoord_outputs)) in
    ss << "  out float4 v_pos : SV_Position)" << nl.

(** [ShaderGen::DeclareFragmentEntryPoint], lines 361-467.  The defaults
    of the last three parameters are [false], [1] and [false]. *)
Definition DeclareFragmentEntryPoint (this : ShaderGen) (ss : stream)
    (num_color_inputs num_texcoord_inputs : Z)
    (additional_inputs : list (string * string))
    (declare_fragcoord : bool) (num_color_outputs : Z) (depth_output : bool)
    : outcome stream :=
  if m_glsl this then
    let ss :=
      if m_use_glsl_interface_blocks this then
        let ss := if IsVulkan this then ss << "layout(location = 0) " else ss in
        let ss := ss << "in VertexData {" << nl in
        let ss := for_u32 num_color_inputs
                    (fun i ss => ss << "  float4 v_col" << fmt_u i << ";" << nl) ss in
        let ss := for_u32 num_texcoord_inputs
                    (fun i ss => ss << "  float2 v_tex" << fmt_u i << ";" << nl) ss in
        let ss := fold_left
                    (fun ss '(qualifiers, name) =>
                       ss << "  " << qualifiers << " " << name << ";" << nl)
                    additional_inputs ss in
        ss << "};" << nl
      else
        let ss := for_u32 num_color_inputs
                    (fun i ss => ss << "in float4 v_col" << fmt_u i << ";" << nl) ss in
        let ss := for_u32 num_texcoord_inputs
                    (fun i ss => ss << "in float2 v_tex" << fmt_u i << ";" << nl) ss in
        fold_left
          (fun ss '(qualifiers, name) =>
             ss << qualifiers << " in " << name << ";" << nl)
          additional_inputs ss in
    let ss :=
      if declare_fragcoord then ss << "#define v_pos gl_FragCoord" << nl else ss in
    let ss :=
      if depth_output then ss << "#define o_depth gl_FragDepth" << nl else ss in
    ss <-
      (if m_use_glsl_binding_layout this then
         if m_supports_dual_source_blend this then
           Returned
             (for_u32 num_color_outputs
                (fun i ss => ss << "layout(location = 0, index = " << fmt_u i
                                << ") out float4 o_col" << fmt_u i << ";" << nl) ss)
         else
           _ <- Assert (num_color_outputs <=? 1) ;;
           Returned
             (for_u32 num_color_outputs
                (fun i ss => ss << "layout(location = 0" << fmt_u i
                                << ") out float4 o_col" << fmt_u i << ";" << nl) ss)
       else
         Returned
           (for_u32 num_color_outputs
              (fun i ss => ss << "out float4 o_col" << fmt_u i << ";" << nl) ss)) ;;
    let ss := ss << nl in
    Returned (ss << "void main()" << nl)
  else
    let ss := ss << "void main(" << nl in
    let ss := for_u32 num_color_inputs
                (fun i ss => ss << "  in float4 v_col" << fmt_u i
                                << " : COLOR" << fmt_u i << "," << nl) ss in
    let ss := for_u32 num_texcoord_inputs
                (fun i ss => ss << "  in float2 v_tex" << fmt_u i
                                << " : TEXCOORD" << fmt_u i << "," << nl) ss in
    let ss :=
      fst (fold_left
             (fun '(ss, additional_counter) '(qualifiers, name) =>
                (ss << "  " << qualifiers << " in " << name << " : TEXCOORD"
                    << fmt_u additional_counter << "," << nl,
                 (additional_counter + 1) mod UINT32_MOD))
             additional_inputs (ss, num_texcoord_inputs)) in
    let ss :=
      if declare_fragcoord
      then ss << "  in float4 v_pos : SV_Position," << nl
      else ss in
    let ss :=
      if depth_output then
        let ss := ss << "  out float o_depth : SV_Depth" in
        if num_color_outputs >? 0 then ss << "," << nl else ss << ")" << nl
      else ss in
    Returned
      (for_u32 num_color_outputs
         (fun i ss =>
            let ss := ss << "  out float4 o_col" << fmt_u i
                         << " : SV_Target" << fmt_u i in
            if i =? (num_color_outputs - 1) mod UINT32_MOD
            then ss << ")" << nl
            else ss << "," << nl) ss).

(** [ShaderGen::GenerateScreenQuadVertexShader], lines 469-485. *)
Definition GenerateScreenQuadVertexShader (gl : GLState) (this : ShaderGen)
  : string :=
  let ss : stream := "" in
  let ss := WriteHeader gl this ss in
  let ss := DeclareVertexEntryPoint this ss [] 0 1 [] true
              default_output_block_suffix in
  ss << nl
     << "{" << nl
     << "  v_tex0 = float2(float((v_id << 1) & 2u), float(v_id & 2u));" << nl
     << "  v_pos = float4(v_tex0 * float2(2.0f, -2.0f) + float2(-1.0f, 1.0f), 0.0f, 1.0f);" << nl
     << "  #if API_OPENGL || API_OPENGL_ES || API_VULKAN" << nl
     << "    v_pos.y = -v_pos.y;" << nl
     << "  #endif" << nl
     << "}" << nl.

(** [ShaderGen::GenerateFillFragmentShader], lines 487-502. *)
Definition GenerateFillFragmentShader (gl : GLState) (this : ShaderGen)
  : outcome string :=
  let ss : stream := "" in
  let ss := WriteHeader gl this ss in
  let ss := DeclareUniformBuffer this ss ["float4 u_fill_color"] true in
  ss <- DeclareFragmentEntryPoint this ss 0 1 [] false 1 true ;;
  Returned
    (ss << nl
        << "{" << nl
        << "  o_col0 = u_fill_color;" << nl
        << "  o_depth = u_fill_color.a;" << nl
        << "}" << nl).

(** [ShaderGen::GenerateCopyFragmentShader], lines 504-520. *)
Definition GenerateCopyFragmentShader (gl : GLState) (this : ShaderGen)
  : outcome string :=
  let ss : stream := "" in
  let ss := WriteHeader gl this ss in
  let ss := DeclareUniformBuffer this ss ["float4 u_src_rect"] true in
  let ss := DeclareTexture this ss "samp0" 0 in
  ss <- DeclareFragmentEntryPoint this ss 0 1 [] false 1 false ;;
  Returned
    (ss << nl
        << "{" << nl
        << "  float2 coords = u_src_rect.xy + v_tex0 * u_src_rect.zw;" << nl
        << "  o_col0 = SAMPLE_TEXTURE(samp0, coords);" << nl
        << "}" << nl).

(** ** The vocabulary of the properties *)

(** The two GL backends. *)
Definition is_GL (api : RenderAPI) : Prop := api = OpenGL \/ api = OpenGLES.

(** Version [major.minor] is at least version [x.y]. *)
Definition version_at_least (major minor x y : Z) : bool :=
  (major >? x) || ((major =? x) && (minor >=? y)).

(** Modelled from the spec: the loader (glad, not under src/) sets
    [GLAD_GL_VERSION_3_2] when the desktop context it queried has version
    3.2 or later, and [GLAD_GL_ES_VERSION_3_2] likewise for an embedded
    context; the flag of the other kind of context stays clear.  [gl] is
    the state the loader leaves for a context of version [major.minor]. *)
Definition loaded_for (api : RenderAPI) (major minor : Z) (gl : GLState) : Prop :=
  GLAD_GL_VERSION_3_2 gl =
    RenderAPI_eqb api OpenGL && version_at_least major minor 3 2 /\
  GLAD_GL_ES_VERSION_3_2 gl =
    RenderAPI_eqb api OpenGLES && version_at_least major minor 3 2.

(** The ceiling of the spec: 4.30 on desktop, 3.20 on embedded. *)
Definition ceiling (es : bool) : Z * Z := if es then (3, 20) else (4, 30).

(** Version [major.minor] is strictly above version [c]. *)
Definition newer_than (major minor : Z) (c : Z * Z) : Prop :=
  major > fst c \/ (major = fst c /\ minor > snd c).

(** The directive: the major number, then the minor number as [%02d]
    writes it (padded with a zero to a width of two), then [" es"] exactly
    when the backend is embedded and the major number is at least 3. *)
Definition directive_text (es : bool) (major minor : Z) : string :=
  "#version " ++ fmt_d major ++ fmt_02d minor ++
  (if es && (major >=? 3) then " es" else "").

(** The text that picks the sample type of a texel buffer. *)
Definition sampler_prefix (is_int is_unsigned : bool) : string :=
  if is_int then (if is_unsigned then "u" else "i") else "".

(** The element type of an HLSL buffer. *)
Definition buffer_element (is_int is_unsigned : bool) : string :=
  if is_int then (if is_unsigned then "uint4" else "int4") else "float4".

(** The Y-flip block of the full-screen-quad vertex shader. *)
Definition y_flip_block : string :=
  "  #if API_OPENGL || API_OPENGL_ES || API_VULKAN" ++ nl ++
  "    v_pos.y = -v_pos.y;" ++ nl ++
  "  #endif" ++ nl.

(** A line that defines one of the backend-identity macros. *)
Definition is_backend_macro (line : string) : bool :=
  prefix "#define API_" line.

(** The line [DefineMacro] writes, without its line feed. *)
Definition macro_line (name : string) (enabled : bool) : string :=
  "#define " ++ name ++ " " ++ (if enabled then "1" else "0").

(** The four backend-identity lines of the header of backend [api]. *)
Definition backend_macros (api : RenderAPI) : list string :=
  [macro_line "API_OPENGL" (RenderAPI_eqb api OpenGL);
   macro_line "API_OPENGL_ES" (RenderAPI_eqb api OpenGLES);
   macro_line "API_D3D11" (RenderAPI_eqb api D3D11);
   macro_line "API_VULKAN" (RenderAPI_eqb api Vulkan)].

(** ** Sample inputs *)

(** A driver that reports the shading-language version [v] and no optional
    feature. *)
Definition driver_reporting (v : option string) : GLState :=
  {| glGetString_SHADING_LANGUAGE_VERSION := v;
     GLAD_GL_VERSION_3_2 := false;
     GLAD_GL_VERSION_4_2 := false;
     GLAD_GL_VERSION_4_3 := false;
     GLAD_GL_ES_VERSION_3_1 := false;
     GLAD_GL_ES_VERSION_3_2 := false;
     GLAD_GL_ARB_explicit_attrib_location := false;
     GLAD_GL_ARB_explicit_uniform_location := false;
     GLAD_GL_ARB_shading_language_420pack := false;
     GLAD_GL_ARB_shader_storage_buffer_object := false;
     GLAD_GL_EXT_blend_func_extended := false;
     unassigned_binding_layout := false |}.

(** A generator with the given capabilities. *)
Definition generator (api : RenderAPI) (dual_source interface_blocks
    binding_layout : bool) (version : string) : ShaderGen :=
  {| m_render_api := api;
     m_glsl := negb (RenderAPI_eqb api D3D11);
     m_supports_dual_source_blend := dual_source;
     m_use_glsl_interface_blocks := interface_blocks;
     m_use_glsl_binding_layout := binding_layout;
     m_glsl_version_string := version |}.

(** A context of the given kind and version, with no extension, as the
    loader presents it. *)
Definition context (api : RenderAPI) (major minor : Z) (v : string) : GLState :=
  let desktop := RenderAPI_eqb api OpenGL in
  let embedded := RenderAPI_eqb api OpenGLES in
  {| glGetString_SHADING_LANGUAGE_VERSION := Some v;
     GLAD_GL_VERSION_3_2 := desktop && version_at_least major minor 3 2;
     GLAD_GL_VERSION_4_2 := desktop && version_at_least major minor 4 2;
     GLAD_GL_VERSION_4_3 := desktop && version_at_least major minor 4 3;
     GLAD_GL_ES_VERSION_3_1 := embedded && version_at_least major minor 3 1;
     GLAD_GL_ES_VERSION_3_2 := embedded && version_at_least major minor 3 2;
     GLAD_GL_ARB_explicit_attrib_location := false;
     GLAD_GL_ARB_explicit_uniform_location := false;
     GLAD_GL_ARB_shading_language_420pack := false;
     GLAD_GL_ARB_shader_storage_buffer_object := false;
     GLAD_GL_EXT_blend_func_extended := false;
     unassigned_binding_layout := false |}.

(** ** The vocabulary of the further properties *)

(** The pieces of a text, one after the other. *)
Fixpoint join (pieces : list string) : string :=
  match pieces with
  | [] => ""
  | piece :: pieces' => piece ++ join pieces'
  end.

(** The values [i] takes in [for (u32 i = 0; i < n; i++)]. *)
Definition u32_range (n : Z) : list Z := map Z.of_nat (seq 0 (Z.to_nat n)).

(** The elements of a list, each with the value a [u32] counter has when
    the loop reaches it; the counter starts at [counter]. *)
Fixpoint numbered {A : Type} (counter : Z) (l : list A) : list (Z * A) :=
  match l with
  | [] => []
  | x :: l' => (counter, x) :: numbered ((counter + 1) mod UINT32_MOD) l'
  end.

Definition not_digit (c : ascii) : bool := negb (isdigit c).

(** The length of the longest run of consecutive digits in a text that
    follows [run] digits. *)
Fixpoint digit_run_from (run : nat) (s : string) : nat :=
  match s with
  | "" => run
  | String c s' =>
      if isdigit c then digit_run_from (S run) s'
      else Nat.max run (digit_run_from 0 s')
  end.

Definition longest_digit_run (s : string) : nat := digit_run_from 0 s.

Definition is_version_line (line : string) : bool := prefix "#version" line.
Definition is_extension_line (line : string) : bool := prefix "#extension" line.
Definition is_precision_line (line : string) : bool := prefix "precision " line.
Definition is_dialect_line (line : string) : bool :=
  String.eqb line "#define GLSL 1" || String.eqb line "#define HLSL 1".

(** The extension lines of the header, in the order the code writes them. *)
Definition extension_lines (api : RenderAPI) (binding_layout : bool)
    (gl : GLState) : list string :=
  match api with
  | OpenGLES =>
      if GLAD_GL_EXT_blend_func_extended gl
      then ["#extension GL_EXT_blend_func_extended : require"] else []
  | OpenGL =>
      (if binding_layout && negb (GLAD_GL_VERSION_4_3 gl)
       then ["#extension GL_ARB_explicit_attrib_location : require";
             "#extension GL_ARB_explicit_uniform_location : require";
             "#extension GL_ARB_shading_language_420pack : require"]
       else []) ++
      (if negb (GLAD_GL_VERSION_3_2 gl)
       then ["#extension GL_ARB_uniform_buffer_object : require"] else []) ++
      (if negb (GLAD_GL_VERSION_4_3 gl) && negb (GLAD_GL_ES_VERSION_3_1 gl) &&
          GLAD_GL_ARB_shader_storage_buffer_object gl
       then ["#extension GL_ARB_shader_storage_buffer_object : require"] else [])
  | _ => []
  end.

(** The precision lines of the header. *)
Definition precision_lines (api : RenderAPI) (gl : GLState) : list string :=
  match api with
  | OpenGLES =>
      ["precision highp float;"; "precision highp int;";
       "precision highp sampler2D;"] ++
      (if GLAD_GL_ES_VERSION_3_2 gl
       then ["precision highp usamplerBuffer;"] else [])
  | _ => []
  end.

(** *** The text of the entry points

    [dir] is ["out"] in the vertex stage and ["in"] in the fragment stage. *)

(** The members of the [VertexData] interface block. *)
Definition block_members (num_color num_texcoord : Z)
    (additional : list (string * string)) : string :=
  join (map (fun i => "  float4 v_col" ++ fmt_u i ++ ";" ++ nl)
          (u32_range num_color)) ++
  join (map (fun i => "  float2 v_tex" ++ fmt_u i ++ ";" ++ nl)
          (u32_range num_texcoord)) ++
  join (map (fun '(qualifiers, name) =>
               "  " ++ qualifiers ++ " " ++ name ++ ";" ++ nl) additional).

(** The same variables, declared one by one. *)
Definition loose_varyings (dir : string) (num_color num_texcoord : Z)
    (additional : list (string * string)) : string :=
  join (map (fun i => dir ++ " float4 v_col" ++ fmt_u i ++ ";" ++ nl)
          (u32_range num_color)) ++
  join (map (fun i => dir ++ " float2 v_tex" ++ fmt_u i ++ ";" ++ nl)
          (u32_range num_texcoord)) ++
  join (map (fun '(qualifiers, name) =>
               qualifiers ++ " " ++ dir ++ " " ++ name ++ ";" ++ nl) additional).

(** The variables that pass from the vertex to the fragment stage, in
    GLSL. *)
Definition glsl_varyings (this : ShaderGen) (dir suffix : string)
    (num_color num_texcoord : Z) (additional : list (string * string))
  : string :=
  if m_use_glsl_interface_blocks this then
    (if IsVulkan this then "layout(location = 0) " else "") ++
    dir ++ " VertexData" ++ suffix ++ " {" ++ nl ++
    block_members num_color num_texcoord additional ++ "};" ++ nl
  else loose_varyings dir num_color num_texcoord additional.

(** The same variables as HLSL parameters; the additional ones continue
    the numbering of the texture coordinates. *)
Definition hlsl_varyings (dir : string) (num_color num_texcoord : Z)
    (additional : list (string * string)) : string :=
  join (map (fun i => "  " ++ dir ++ " float4 v_col" ++ fmt_u i ++
                      " : COLOR" ++ fmt_u i ++ "," ++ nl)
          (u32_range num_color)) ++
  join (map (fun i => "  " ++ dir ++ " float2 v_tex" ++ fmt_u i ++
                      " : TEXCOORD" ++ fmt_u i ++ "," ++ nl)
          (u32_range num_texcoord)) ++
  join (map (fun '(counter, (qualifiers, name)) =>
               "  " ++ qualifiers ++ " " ++ dir ++ " " ++ name ++
               " : TEXCOORD" ++ fmt_u counter ++ "," ++ nl)
          (numbered num_texcoord additional)).

(** The vertex attributes, in GLSL and in HLSL. *)
Definition glsl_attributes (binding_layout : bool) (attributes : list string)
  : string :=
  if binding_layout then
    join (map (fun '(counter, attribute) =>
                 "layout(location = " ++ fmt_u counter ++ ") in " ++
                 attribute ++ ";" ++ nl)
            (numbered 0 attributes))
  else join (map (fun attribute => "in " ++ attribute ++ ";" ++ nl) attributes).

Definition hlsl_attributes (attributes : list string) : string :=
  join (map (fun '(counter, attribute) =>
               "  in " ++ attribute ++ " : ATTR" ++ fmt_u counter ++ "," ++ nl)
          (numbered 0 attributes)).

(** The text of the vertex entry point. *)
Definition vertex_entry_text (this : ShaderGen) (attributes : list string)
    (num_color num_texcoord : Z) (additional : list (string * string))
    (declare_vertex_id : bool) (suffix : string) : string :=
  if m_glsl this then
    glsl_attributes (m_use_glsl_binding_layout this) attributes ++
    glsl_varyings this "out" suffix num_color num_texcoord additional ++
    "#define v_pos gl_Position" ++ nl ++ nl ++
    (if declare_vertex_id
     then (if IsVulkan this then "#define v_id uint(gl_VertexIndex)"
           else "#define v_id uint(gl_VertexID)") ++ nl
     else "") ++
    nl ++ "void main()" ++ nl
  else
    "void main(" ++ nl ++
    (if declare_vertex_id then "  in uint v_id : SV_VertexID," ++ nl else "") ++
    hlsl_attributes attributes ++
    hlsl_varyings "out" num_color num_texcoord additional ++
    "  out float4 v_pos : SV_Position)" ++ nl.

(** The colour outputs of the fragment stage, in GLSL and in HLSL. *)
Definition glsl_color_outputs (this : ShaderGen) (num_color_outputs : Z)
  : string :=
  if m_use_glsl_binding_layout this then
    if m_supports_dual_source_blend this then
      join (map (fun i => "layout(location = 0, index = " ++ fmt_u i ++
                          ") out float4 o_col" ++ fmt_u i ++ ";" ++ nl)
              (u32_range num_color_outputs))
    else
      join (map (fun i => "layout(location = 0" ++ fmt_u i ++
                          ") out float4 o_col" ++ fmt_u i ++ ";" ++ nl)
              (u32_range num_color_outputs))
  else
    join (map (fun i => "out float4 o_col" ++ fmt_u i ++ ";" ++ nl)
            (u32_range num_color_outputs)).

Definition hlsl_color_outputs (num_color_outputs : Z) : string :=
  join (map (fun i => "  out float4 o_col" ++ fmt_u i ++ " : SV_Target" ++
                      fmt_u i ++
                      (if i =? (num_color_outputs - 1) mod UINT32_MOD
                       then ")" else ",") ++ nl)
          (u32_range num_color_outputs)).

(** The state in which the fragment entry point stops at its assertion. *)
Definition fragment_assertion_fails (this : ShaderGen) (num_color_outputs : Z)
  : bool :=
  m_glsl this && m_use_glsl_binding_layout this &&
  negb (m_supports_dual_source_blend this) && (1 <? num_color_outputs).

(** The text of the fragment entry point. *)
Definition fragment_entry_text (this : ShaderGen)
    (num_color num_texcoord : Z) (additional : list (string * string))
    (declare_fragcoord : bool) (num_color_outputs : Z) (depth_output : bool)
  : string :=
  if m_glsl this then
    glsl_varyings this "in" "" num_color num_texcoord additional ++
    (if declare_fragcoord then "#define v_pos gl_FragCoord" ++ nl else "") ++
    (if depth_output then "#define o_depth gl_FragDepth" ++ nl else "") ++
    glsl_color_outputs this num_color_outputs ++
    nl ++ "void main()" ++ nl
  else
    "void main(" ++ nl ++
    hlsl_varyings "in" num_color num_texcoord additional ++
    (if declare_fragcoord then "  in float4 v_pos : SV_Position," ++ nl else "") ++
    (if depth_output
     then "  out float o_depth : SV_Depth" ++
          (if num_color_outputs >? 0 then "," else ")") ++ nl
     else "") ++
    hlsl_color_outputs num_color_outputs.

(** The first line of a uniform buffer declaration. *)
Definition uniform_buffer_heading (this : ShaderGen)
    (push_constant_on_vulkan : bool) : string :=
  if IsVulkan this then
    if push_constant_on_vulkan
    then "layout(push_constant) uniform PushConstants"
    else "layout(std140, set = 0, binding = 0) uniform UBOBlock"
  else if m_glsl this then
    if m_use_glsl_binding_layout this
    then "layout(std140, binding = 1) uniform UBOBlock"
    else "layout(std140) uniform UBOBlock"
  else "cbuffer UBOBlock : register(b0)".

(** The bodies of the three assembled shaders. *)
Definition screen_quad_body : string :=
  nl ++ "{" ++ nl ++
  "  v_tex0 = float2(float((v_id << 1) & 2u), float(v_id & 2u));" ++ nl ++
  "  v_pos = float4(v_tex0 * float2(2.0f, -2.0f) + float2(-1.0f, 1.0f), 0.0f, 1.0f);" ++ nl ++
  y_flip_block ++ "}" ++ nl.

Definition fill_body : string :=
  nl ++ "{" ++ nl ++
  "  o_col0 = u_fill_color;" ++ nl ++
  "  o_depth = u_fill_color.a;" ++ nl ++
  "}" ++ nl.

Definition copy_body : string :=
  nl ++ "{" ++ nl ++
  "  float2 coords = u_src_rect.xy + v_tex0 * u_src_rect.zw;" ++ nl ++
  "  o_col0 = SAMPLE_TEXTURE(samp0, coords);" ++ nl ++
  "}" ++ nl.

(** * Part II: properties *)

(** ** Facts about text *)

Module TextFacts.

Lemma app_assoc (a b c : string) : (a ++ b) ++ c = a ++ (b ++ c).
Proof. induction a as [|x a IH]; simpl; [reflexivity | now rewrite IH]. Qed.

Lemma app_nil_r (a : string) : a ++ "" = a.
Proof. induction a as [|x a IH]; simpl; [reflexivity | now rewrite IH]. Qed.

Lemma length_app (a b : string) :
  String.length (a ++ b) = (String.length a + String.length b)%nat.
Proof. induction a as [|x a IH]; simpl; [reflexivity | now rewrite IH]. Qed.

Lemma substring_all (n : nat) (s : string) :
  (String.length s <= n)%nat -> substring 0 n s = s.
Proof.
  revert n; induction s as [|x s IH]; intros [|n] H; simpl in *;
    try reflexivity; try lia.
  now rewrite IH by lia.
Qed.

Lemma all_chars_app p a b :
  all_chars p (a ++ b) = all_chars p a && all_chars p b.
Proof.
  induction a as [|x a IH]; simpl; [reflexivity|].
  now rewrite IH, andb_assoc.
Qed.

Lemma prefix_app (p s : string) : prefix p (p ++ s) = true.
Proof.
  induction p as [|x p IH]; simpl; [now destruct s|].
  destruct (ascii_dec x x); [exact IH | congruence].
Qed.

Lemma prefix_app_r (p s t : string) :
  prefix p s = true -> prefix p (s ++ t) = true.
Proof.
  revert s; induction p as [|x p IH]; intros s H; simpl in *.
  - now destruct (s ++ t).
  - destruct s as [|y s]; simpl in *; [discriminate|].
    destruct (ascii_dec x y); [now apply IH | discriminate].
Qed.

Lemma contains_cons (pat : string) (x : ascii) (s : string) :
  contains pat (String x s) = prefix pat (String x s) || contains pat s.
Proof. reflexivity. Qed.

Lemma contains_app_l (pat a s : string) :
  contains pat s = true -> contains pat (a ++ s) = true.
Proof.
  intro H; induction a as [|x a IH]; [exact H|].
  change (String x a ++ s) with (String x (a ++ s)).
  rewrite contains_cons, IH; apply orb_true_r.
Qed.

Lemma contains_app_r (pat s b : string) :
  contains pat s = true -> contains pat (s ++ b) = true.
Proof.
  induction s as [|x s IH]; intro H.
  - destruct pat; [now destruct b | discriminate].
  - change (String x s ++ b) with (String x (s ++ b)).
    rewrite contains_cons in *.
    apply orb_true_iff in H; destruct H as [H|H].
    + change (String x (s ++ b)) with (String x s ++ b).
      rewrite (prefix_app_r _ _ _ H); reflexivity.
    + rewrite (IH H); apply orb_true_r.
Qed.

Lemma contains_mid (pat a b : string) : contains pat (a ++ pat ++ b) = true.
Proof.
  apply contains_app_l.
  destruct (pat ++ b) eqn:E.
  - destruct pat; [reflexivity | discriminate].
  - rewrite contains_cons, <- E, prefix_app; reflexivity.
Qed.

Lemma lines_from_app cur a r :
  all_chars not_LF a = true ->
  lines_from cur (a ++ String LF r) = (cur ++ a) :: lines r.
Proof.
  revert cur; induction a as [|x a IH]; intros cur H; simpl in *.
  - now rewrite app_nil_r.
  - apply andb_true_iff in H; destruct H as [Hx Ha].
    unfold not_LF in Hx; apply negb_true_iff in Hx; rewrite Hx.
    rewrite (IH _ Ha), app_assoc; reflexivity.
Qed.

Lemma lines_app a r :
  all_chars not_LF a = true -> lines (a ++ String LF r) = a :: lines r.
Proof. intro H; unfold lines at 1; now rewrite lines_from_app. Qed.

Lemma app_inv_head (p a b : string) : p ++ a = p ++ b -> a = b.
Proof.
  induction p as [|x p IH]; simpl; intro H; [exact H|].
  injection H as H; auto.
Qed.

Lemma filter_skip {A : Type} (p : A -> bool) (x : A) (l : list A) :
  p x = false -> filter p (x :: l) = filter p l.
Proof. intro H; simpl; now rewrite H. Qed.

End TextFacts.

Import TextFacts.

(** ** The C library model on sample inputs *)

Example scan_460 : sscanf_d_dot_d "4.60 NVIDIA 535.54" 0 0 = Returned (2, 4, 60).
Proof. reflexivity. Qed.
Example scan_4 : sscanf_d_dot_d "4" 0 0 = Returned (1, 4, 0).
Proof. reflexivity. Qed.
Example scan_empty : sscanf_d_dot_d "" 0 0 = Returned (-1, 0, 0).
Proof. reflexivity. Qed.
Example fmt_430 : fmt_d 4 ++ fmt_02d 30 = "430".
Proof. reflexivity. Qed.
Example fmt_305 : fmt_d 3 ++ fmt_02d 5 = "305".
Proof. reflexivity. Qed.
Example fmt_max : fmt_u 4294967295 = "4294967295".
Proof. reflexivity. Qed.

Lemma RenderAPI_eqb_eq (a b : RenderAPI) : RenderAPI_eqb a b = true <-> a = b.
Proof. destruct a, b; simpl; split; congruence. Qed.

(** ** Formatting *)

Section Formatting.

Lemma length_utoa fuel n acc :
  (String.length (utoa fuel n acc) <= fuel + String.length acc)%nat.
Proof.
  revert n acc; induction fuel as [|fuel IH]; intros n acc; simpl; [lia|].
  destruct (n <? 10); [simpl; lia|].
  specialize (IH (n / 10) (String (digit_char (n mod 10)) acc)).
  simpl in IH; lia.
Qed.

Lemma length_fmt_d n : (String.length (fmt_d n) <= 11)%nat.
Proof.
  unfold fmt_d, fmt_u; destruct (n <? 0); simpl.
  - pose proof (length_utoa 10 (- n) ""); simpl in *; lia.
  - pose proof (length_utoa 10 n ""); simpl in *; lia.
Qed.

Lemma length_fmt_02d n : (String.length (fmt_02d n) <= 12)%nat.
Proof.
  unfold fmt_02d; pose proof (length_fmt_d n).
  destruct (String.length (fmt_d n) <? 2)%nat; simpl; lia.
Qed.

(** The 128-byte buffer never cuts the directive short. *)
Lemma version_directive_eq glsl_es major minor :
  version_directive glsl_es major minor =
  "#version " ++ fmt_d major ++ fmt_02d minor ++
  (if glsl_es && (major >=? 3) then " es" else "").
Proof.
  unfold version_directive, snprintf.
  apply substring_all.
  rewrite !length_app.
  pose proof (length_fmt_d major); pose proof (length_fmt_02d minor).
  destruct (glsl_es && (major >=? 3)); simpl; lia.
Qed.

Lemma digit_char_not_LF d : 0 <= d < 10 -> not_LF (digit_char d) = true.
Proof.
  intro H.
  assert (E : d = 0 \/ d = 1 \/ d = 2 \/ d = 3 \/ d = 4 \/
              d = 5 \/ d = 6 \/ d = 7 \/ d = 8 \/ d = 9) by lia.
  repeat (destruct E as [E|E]; [subst d; reflexivity|]); subst d; reflexivity.
Qed.

Lemma utoa_not_LF fuel n acc :
  all_chars not_LF acc = true -> all_chars not_LF (utoa fuel n acc) = true.
Proof.
  revert n acc; induction fuel as [|fuel IH]; intros n acc H; simpl; [exact H|].
  assert (H' : all_chars not_LF (String (digit_char (n mod 10)) acc) = true).
  { simpl; rewrite H, digit_char_not_LF; [reflexivity|].
    apply Z.mod_pos_bound; lia. }
  destruct (n <? 10); [exact H' | now apply IH].
Qed.

Lemma fmt_d_not_LF n : all_chars not_LF (fmt_d n) = true.
Proof.
  unfold fmt_d, fmt_u; destruct (n <? 0).
  - change ("-" ++ utoa 10 (- n) "") with (String "-" (utoa 10 (- n) "")).
    cbn [all_chars]; now rewrite utoa_not_LF.
  - now apply utoa_not_LF.
Qed.

Lemma fmt_02d_not_LF n : all_chars not_LF (fmt_02d n) = true.
Proof.
  unfold fmt_02d; destruct (String.length (fmt_d n) <? 2)%nat.
  - change ("0" ++ fmt_d n) with (String "0" (fmt_d n)).
    cbn [all_chars]; now rewrite fmt_d_not_LF.
  - apply fmt_d_not_LF.
Qed.

(** A directive is one line that starts with [#version]. *)
Lemma version_directive_shape glsl_es major minor :
  exists tail,
    version_directive glsl_es major minor = "#version " ++ tail /\
    all_chars not_LF tail = true.
Proof.
  rewrite version_directive_eq; eexists; split; [reflexivity|].
  rewrite !all_chars_app, fmt_d_not_LF, fmt_02d_not_LF.
  now destruct (glsl_es && (major >=? 3)).
Qed.

(** For a minor version of at most two digits, [%02d] gives exactly the
    two digits. *)
Lemma fmt_02d_two_digits m :
  0 <= m <= 99 ->
  fmt_02d m = String (digit_char (m / 10)) (String (digit_char (m mod 10)) "").
Proof.
  intros [Hlo Hhi].
  unfold fmt_02d, fmt_d, fmt_u.
  assert (Hneg : (m <? 0) = false) by (apply Z.ltb_ge; lia).
  rewrite Hneg; cbn [utoa].
  destruct (m <? 10) eqn:E.
  - apply Z.ltb_lt in E.
    rewrite (Z.mod_small m 10), (Z.div_small m 10) by lia.
    reflexivity.
  - apply Z.ltb_ge in E.
    assert (Hq : (m / 10 <? 10) = true).
    { apply Z.ltb_lt, Z.div_lt_upper_bound; lia. }
    rewrite Hq.
    assert (Hqq : (m / 10) mod 10 = m / 10).
    { apply Z.mod_small; split; [apply Z.div_pos; lia|].
      apply Z.div_lt_upper_bound; lia. }
    rewrite Hqq; reflexivity.
Qed.

End Formatting.

(** ** Reading numbers back *)

(** A digit character is a digit, and has the value it was made from. *)
Lemma digit_char_value d :
  0 <= d < 10 ->
  isdigit (digit_char d) = true /\ code (digit_char d) - 48 = d.
Proof.
  intro H.
  assert (E : d = 0 \/ d = 1 \/ d = 2 \/ d = 3 \/ d = 4 \/
              d = 5 \/ d = 6 \/ d = 7 \/ d = 8 \/ d = 9) by lia.
  repeat (destruct E as [E|E]; [subst d; split; reflexivity|]);
    subst d; split; reflexivity.
Qed.

Lemma utoa_app fuel n acc rest :
  utoa fuel n acc ++ rest = utoa fuel n (acc ++ rest).
Proof.
  revert n acc; induction fuel as [|fuel IH]; intros n acc; cbn [utoa];
    [reflexivity|].
  destruct (n <? 10); [reflexivity | now rewrite IH].
Qed.

Lemma scan_digits_digit d acc s :
  0 <= d < 10 ->
  scan_digits (String (digit_char d) s) acc = scan_digits s (acc * 10 + d).
Proof.
  intro H; destruct (digit_char_value d H) as [Hd Hv].
  cbn [scan_digits]; now rewrite Hd, Hv.
Qed.

(** Scanning the digits that [utoa] wrote gives the number back. *)
Lemma scan_digits_utoa fuel n acc :
  0 <= n < 10 ^ Z.of_nat fuel ->
  scan_digits (utoa fuel n acc) 0 = scan_digits acc n.
Proof.
  revert n acc; induction fuel as [|fuel IH]; intros n acc Hn.
  - cbn in Hn; assert (n = 0) by lia; subst n; reflexivity.
  - rewrite Nat2Z.inj_succ, Z.pow_succ_r in Hn by lia.
    assert (Hm : 0 <= n mod 10 < 10) by (apply Z.mod_pos_bound; lia).
    cbn [utoa]; destruct (Z.ltb_spec n 10) as [Hlt | Hge].
    + rewrite scan_digits_digit by exact Hm.
      rewrite Z.mod_small by lia; reflexivity.
    + rewrite IH.
      * rewrite scan_digits_digit by exact Hm.
        f_equal; pose proof (Z.div_mod n 10); lia.
      * split; [apply Z.div_pos; lia | apply Z.div_lt_upper_bound; lia].
Qed.

Lemma scan_digits_stop s acc :
  first_is_digit s = false -> scan_digits s acc = (acc, s).
Proof.
  destruct s as [|c s]; cbn [first_is_digit scan_digits]; intro H;
    [reflexivity | now rewrite H].
Qed.

Lemma scan_digits_fmt_u n rest :
  0 <= n <= INT_MAX ->
  first_is_digit rest = false ->
  scan_digits (fmt_u n ++ rest) 0 = (n, rest).
Proof.
  intros Hn Hrest; unfold fmt_u.
  rewrite utoa_app, scan_digits_utoa.
  - now apply scan_digits_stop.
  - unfold INT_MAX in Hn; change (10 ^ Z.of_nat 10) with 10000000000; lia.
Qed.

Lemma first_is_digit_utoa fuel n acc :
  first_is_digit (utoa (S fuel) n acc) = true.
Proof.
  revert n acc; induction fuel as [|fuel IH]; intros n acc.
  - assert (Hm : 0 <= n mod 10 < 10) by (apply Z.mod_pos_bound; lia).
    cbn [utoa]; destruct (n <? 10); cbn [first_is_digit];
      apply (digit_char_value _ Hm).
  - assert (Hm : 0 <= n mod 10 < 10) by (apply Z.mod_pos_bound; lia).
    change (utoa (S (S fuel)) n acc) with
      (if n <? 10 then String (digit_char (n mod 10)) acc
       else utoa (S fuel) (n / 10) (String (digit_char (n mod 10)) acc)).
    destruct (n <? 10); [apply (digit_char_value _ Hm) | apply IH].
Qed.

Lemma first_is_digit_app s rest :
  first_is_digit s = true -> first_is_digit (s ++ rest) = true.
Proof. destruct s; [discriminate | exact (fun H => H)]. Qed.

(** [%d] at a digit: no white space to skip and no sign. *)
Lemma scan_d_at_digit s :
  first_is_digit s = true ->
  scan_d s =
  (let '(v, rest) := scan_digits s 0 in
   if in_int v then ConvInt v rest else ConvOverflow).
Proof.
  destruct s as [|c s]; [discriminate|].
  cbn [first_is_digit]; intro Hd.
  assert (Hsp : isspace c = false).
  { unfold isdigit in Hd; unfold isspace.
    apply andb_true_iff in Hd; destruct Hd as [H1 H2].
    apply Z.leb_le in H1; apply Z.leb_le in H2.
    apply orb_false_iff; split; [apply Z.eqb_neq; lia|].
    apply andb_false_iff; right; apply Z.leb_gt; lia. }
  assert (Hminus : Ascii.eqb c "-" = false).
  { destruct (Ascii.eqb_spec c "-"); [subst c; discriminate Hd | reflexivity]. }
  assert (Hplus : Ascii.eqb c "+" = false).
  { destruct (Ascii.eqb_spec c "+"); [subst c; discriminate Hd | reflexivity]. }
  unfold scan_d; cbn [skip_space]; rewrite Hsp, Hminus, Hplus.
  cbn [first_is_digit]; rewrite Hd; reflexivity.
Qed.

Lemma fmt_d_nonneg n : 0 <= n -> fmt_d n = fmt_u n.
Proof.
  intro H; unfold fmt_d.
  destruct (Z.ltb_spec n 0); [lia | reflexivity].
Qed.

Lemma length_utoa_lower fuel n acc :
  (String.length acc <= String.length (utoa fuel n acc))%nat.
Proof.
  revert n acc; induction fuel as [|fuel IH]; intros n acc; cbn [utoa];
    [lia|].
  destruct (n <? 10); [cbn [String.length]; lia|].
  specialize (IH (n / 10) (String (digit_char (n mod 10)) acc)).
  cbn [String.length] in IH; lia.
Qed.

Lemma utoa_succ fuel n acc :
  utoa (S fuel) n acc =
  if n <? 10 then String (digit_char (n mod 10)) acc
  else utoa fuel (n / 10) (String (digit_char (n mod 10)) acc).
Proof. reflexivity. Qed.

Lemma length_utoa_succ fuel n acc :
  (S (String.length acc) <= String.length (utoa (S fuel) n acc))%nat.
Proof.
  cbn [utoa]; destruct (n <? 10); [cbn [String.length]; lia|].
  pose proof (length_utoa_lower fuel (n / 10)
                (String (digit_char (n mod 10)) acc)) as L.
  cbn [String.length] in L; lia.
Qed.

Lemma fmt_02d_nonneg m :
  0 <= m ->
  fmt_02d m = if m <? 10 then "0" ++ fmt_u m else fmt_u m.
Proof.
  intro H; unfold fmt_02d; rewrite fmt_d_nonneg by exact H.
  unfold fmt_u; rewrite (utoa_succ 9).
  destruct (m <? 10); [reflexivity|].
  pose proof (length_utoa_succ 8 (m / 10) (String (digit_char (m mod 10)) "")) as L.
  cbn [String.length] in L.
  destruct (Nat.ltb_spec
              (String.length (utoa 9 (m / 10) (String (digit_char (m mod 10)) ""))) 2);
    [lia | reflexivity].
Qed.

Lemma scan_digits_fmt_02d m rest :
  0 <= m <= INT_MAX ->
  first_is_digit rest = false ->
  scan_digits (fmt_02d m ++ rest) 0 = (m, rest) /\
  first_is_digit (fmt_02d m ++ rest) = true.
Proof.
  intros Hm Hrest; rewrite fmt_02d_nonneg by lia.
  destruct (m <? 10).
  - split; [|reflexivity].
    change (("0" ++ fmt_u m) ++ rest) with (String (digit_char 0) (fmt_u m ++ rest)).
    rewrite scan_digits_digit by lia.
    now apply scan_digits_fmt_u.
  - split; [now apply scan_digits_fmt_u|].
    apply first_is_digit_app, first_is_digit_utoa.
Qed.

(** [sscanf] reads back a version that is written as the major number, a
    dot, and the minor number with two digits or more. *)
Lemma sscanf_reads_version major minor rest :
  0 <= major <= INT_MAX ->
  0 <= minor <= INT_MAX ->
  first_is_digit rest = false ->
  sscanf_d_dot_d (fmt_u major ++ "." ++ fmt_02d minor ++ rest) 0 0 =
  Returned (2, major, minor).
Proof.
  intros HM Hm Hrest.
  assert (Hin : forall x, 0 <= x <= INT_MAX -> in_int x = true).
  { intros x Hx; unfold in_int, INT_MIN, INT_MAX in *.
    apply andb_true_iff; split; apply Z.leb_le; lia. }
  destruct (scan_digits_fmt_02d minor rest Hm Hrest) as [Hscan Hfirst].
  unfold sscanf_d_dot_d.
  rewrite scan_d_at_digit by (apply first_is_digit_app, first_is_digit_utoa).
  rewrite scan_digits_fmt_u by (exact HM || reflexivity).
  rewrite (Hin major HM).
  cbn [append]; change (Ascii.eqb "." ".") with true; cbv iota.
  rewrite scan_d_at_digit by exact Hfirst.
  rewrite Hscan, (Hin minor Hm); reflexivity.
Qed.

(** ** The version directive *)

Section VersionString.

Variable gl : GLState.
Variable this : ShaderGen.

Let glsl_es : bool := RenderAPI_eqb (m_render_api this) OpenGLES.

Lemma cap_version_spec es major minor :
  (newer_than major minor (ceiling es) ->
   cap_version es major minor = ceiling es) /\
  (~ newer_than major minor (ceiling es) ->
   cap_version es major minor = (major, minor)).
Proof.
  unfold cap_version, newer_than, ceiling.
  destruct es; cbn [negb andb fst snd]; rewrite !Z.gtb_ltb;
    match goal with
    | |- context [?a <? major] =>
        destruct (Z.ltb_spec a major); destruct (Z.eqb_spec major a)
    end;
    match goal with
    | |- context [?b <? minor] => destruct (Z.ltb_spec b minor)
    end;
    cbn [orb andb]; split; intro; try reflexivity; exfalso; lia.
Qed.

(** What the function does once [sscanf] has read both numbers. *)
Lemma SetGLSLVersionString_parsed v major minor :
  glGetString_SHADING_LANGUAGE_VERSION gl = Some v ->
  sscanf_d_dot_d (skip_to_digit v) 0 0 = Returned (2, major, minor) ->
  SetGLSLVersionString gl this =
  Returned
    (set_version_string
       (directive_text glsl_es
          (fst (cap_version glsl_es major minor))
          (snd (cap_version glsl_es major minor))) this, []).
Proof.
  intros Hv Hscan.
  unfold SetGLSLVersionString; rewrite Hv, Hscan; cbn [bind Z.eqb Pos.eqb].
  fold glsl_es.
  destruct (cap_version glsl_es major minor) as [M m]; cbn [fst snd].
  now rewrite version_directive_eq.
Qed.

(** What it does when [sscanf] stops early: the error is logged, and the
    directive is formatted from the numbers as they then stand. *)
Lemma SetGLSLVersionString_unparsed v assigned major minor :
  glGetString_SHADING_LANGUAGE_VERSION gl = Some v ->
  sscanf_d_dot_d (skip_to_digit v) 0 0 = Returned (assigned, major, minor) ->
  assigned <> 2 ->
  SetGLSLVersionString gl this =
  Returned
    (set_version_string
       (if glsl_es then "#version 300 es"
        else directive_text false major minor) this,
     ["Invalid GLSL version string: '" ++ v ++ "' ('" ++
      skip_to_digit v ++ "')"]).
Proof.
  intros Hv Hscan Hne.
  unfold SetGLSLVersionString; rewrite Hv, Hscan; cbn [bind].
  apply Z.eqb_neq in Hne; rewrite Hne.
  fold glsl_es; destruct glsl_es.
  - reflexivity.
  - now rewrite version_directive_eq.
Qed.

(** [sscanf] leaves the minor number alone unless it reports two
    assignments. *)
Lemma sscanf_early_minor s major0 minor0 assigned major minor :
  sscanf_d_dot_d s major0 minor0 = Returned (assigned, major, minor) ->
  assigned <> 2 -> minor = minor0.
Proof.
  unfold sscanf_d_dot_d; intros H Hne.
  destruct (scan_d s) as [w rest| | |]; try congruence.
  destruct rest as [|c rest]; [congruence|].
  destruct (Ascii.eqb c "."); [|congruence].
  destruct (scan_d rest); congruence.
Qed.

(** With a version string present the call returns, unless [sscanf]
    converts a number that does not fit an [int]. *)
Lemma SetGLSLVersionString_returns v :
  glGetString_SHADING_LANGUAGE_VERSION gl = Some v ->
  sscanf_d_dot_d (skip_to_digit v) 0 0 <> Undefined ->
  exists major minor lg,
    SetGLSLVersionString gl this =
    Returned (set_version_string (version_directive glsl_es major minor) this, lg).
Proof.
  intros Hv Hdef.
  unfold SetGLSLVersionString; rewrite Hv.
  destruct (sscanf_d_dot_d (skip_to_digit v) 0 0) as [[[n M] m]| |] eqn:E;
    [| | congruence].
  - cbn [bind]; fold glsl_es.
    destruct (n =? 2).
    + destruct (cap_version glsl_es M m) as [M' m'].
      do 3 eexists; reflexivity.
    + destruct glsl_es; do 3 eexists; reflexivity.
  - exfalso; revert E; unfold sscanf_d_dot_d.
    destruct (scan_d (skip_to_digit v)) as [w rest| | |]; try congruence.
    destruct rest as [|c rest]; [congruence|].
    destruct (Ascii.eqb c "."); [|congruence].
    destruct (scan_d rest); congruence.
Qed.

(** Whenever the call returns, the directive it stores is the formatted
    one. *)
Lemma SetGLSLVersionString_directive g lg :
  SetGLSLVersionString gl this = Returned (g, lg) ->
  exists major minor,
    g = set_version_string (version_directive glsl_es major minor) this.
Proof.
  unfold SetGLSLVersionString.
  destruct (glGetString_SHADING_LANGUAGE_VERSION gl) as [v|]; [|discriminate].
  destruct (sscanf_d_dot_d (skip_to_digit v) 0 0) as [[[n M] m]| |];
    try discriminate.
  cbn [bind]; fold glsl_es.
  destruct (n =? 2).
  - destruct (cap_version glsl_es M m) as [M' m'].
    intro H; injection H as <- _; do 2 eexists; reflexivity.
  - destruct glsl_es; intro H; injection H as <- _;
      do 2 eexists; reflexivity.
Qed.

End VersionString.

(** ** Claims about the version directive *)

(** C1 (the code departs from it).  The claim: an unparsable version string
    yields the fallback directive, "130" on desktop GL and "300 es" on
    embedded GL, with an error logged and no abort.  On desktop GL the code
    stores "130" and then overwrites it with the directive formatted from
    the numbers [sscanf] left behind: a string without digits gives
    [#version 000], and the string "4" gives [#version 400].  The error is
    logged and the constructor returns. *)
Theorem C1_desktop_fallback_overwritten :
  new_ShaderGen (driver_reporting (Some "unknown")) OpenGL false =
    Returned
      (generator OpenGL false false false "#version 000",
       ["Invalid GLSL version string: 'unknown' ('')"]) /\
  new_ShaderGen (driver_reporting (Some "4")) OpenGL false =
    Returned
      (generator OpenGL false false false "#version 400",
       ["Invalid GLSL version string: '4' ('4')"]) /\
  new_ShaderGen (driver_reporting (Some "unknown")) OpenGLES false =
    Returned
      (generator OpenGLES false false false "#version 300 es",
       ["Invalid GLSL version string: 'unknown' ('')"]).
Proof. repeat split; reflexivity. Qed.

(** On embedded GL the fallback is the documented one for every version
    string that [sscanf] does not read in full. *)
Lemma embedded_fallback gl this v assigned major minor :
  m_render_api this = OpenGLES ->
  glGetString_SHADING_LANGUAGE_VERSION gl = Some v ->
  sscanf_d_dot_d (skip_to_digit v) 0 0 = Returned (assigned, major, minor) ->
  assigned <> 2 ->
  SetGLSLVersionString gl this =
  Returned
    (set_version_string "#version 300 es" this,
     ["Invalid GLSL version string: '" ++ v ++ "' ('" ++ skip_to_digit v ++ "')"]).
Proof.
  intros Hapi Hv Hscan Hne.
  rewrite (SetGLSLVersionString_unparsed gl this v assigned major minor Hv Hscan Hne).
  now rewrite Hapi.
Qed.

(** On desktop GL the fallback is never [#version 130]: the minor number is
    still zero when [sscanf] stops early. *)
Lemma desktop_fallback_never_130 gl this v assigned major minor g lg :
  m_render_api this = OpenGL ->
  glGetString_SHADING_LANGUAGE_VERSION gl = Some v ->
  sscanf_d_dot_d (skip_to_digit v) 0 0 = Returned (assigned, major, minor) ->
  assigned <> 2 ->
  SetGLSLVersionString gl this = Returned (g, lg) ->
  m_glsl_version_string g = "#version " ++ fmt_d major ++ "00" /\
  m_glsl_version_string g <> "#version 130".
Proof.
  intros Hapi Hv Hscan Hne Hret.
  rewrite (SetGLSLVersionString_unparsed gl this v assigned major minor Hv Hscan Hne)
    in Hret.
  rewrite Hapi in Hret; cbn [RenderAPI_eqb] in Hret.
  injection Hret as <- _; cbn [m_glsl_version_string set_version_string].
  assert (Hm : minor = 0) by (eapply sscanf_early_minor; eauto).
  subst minor; unfold directive_text; cbn [andb].
  change (fmt_02d 0 ++ "") with "00".
  split; [reflexivity|].
  intro H; cbn [append] in H; injection H as H.
  destruct (fmt_d major) as [|c1 [|c2 [|c3 s]]]; cbn [append] in H;
    try discriminate.
  destruct s; discriminate.
Qed.

(** *** What [sscanf] can have read *)

Lemma isdigit_value c : isdigit c = true -> 0 <= code c - 48 <= 9.
Proof.
  unfold isdigit; intro H; apply andb_true_iff in H; destruct H as [H1 H2].
  apply Z.leb_le in H1; apply Z.leb_le in H2; lia.
Qed.

Lemma scan_digits_nonneg s acc : 0 <= acc -> 0 <= fst (scan_digits s acc).
Proof.
  revert acc; induction s as [|c s IH]; intros acc H; cbn [scan_digits];
    [exact H|].
  destruct (isdigit c) eqn:E; [|exact H].
  apply IH; pose proof (isdigit_value c E); lia.
Qed.

(** What the skipping loop leaves is empty or starts with a digit. *)
Lemma skip_to_digit_first v :
  skip_to_digit v = "" \/ first_is_digit (skip_to_digit v) = true.
Proof.
  induction v as [|c v IH]; [now left|].
  cbn [skip_to_digit]; destruct (isdigit c) eqn:E; [right; exact E | exact IH].
Qed.

(** A value that [%d] assigns fits an [int]. *)
Lemma scan_d_in_int s v rest : scan_d s = ConvInt v rest -> in_int v = true.
Proof.
  unfold scan_d; destruct (skip_space s) as [|c s']; [discriminate|].
  destruct (Ascii.eqb c "-"); [|destruct (Ascii.eqb c "+")].
  all: match goal with
       | |- context [first_is_digit ?b] =>
           destruct (first_is_digit b); [|discriminate]
       end.
  all: match goal with
       | |- context [scan_digits ?b 0] => destruct (scan_digits b 0) as [w r]
       end.
  all: match goal with
       | |- context [in_int ?x] => destruct (in_int x) eqn:E; [|discriminate]
       end.
  all: intro H; injection H as <- _; exact E.
Qed.

(** The two numbers of a version read in full: the major number starts at
    a digit, so it has no sign; the minor number may have one. *)
Lemma sscanf_parsed_range v major minor :
  sscanf_d_dot_d (skip_to_digit v) 0 0 = Returned (2, major, minor) ->
  0 <= major <= INT_MAX /\ INT_MIN <= minor <= INT_MAX.
Proof.
  unfold sscanf_d_dot_d.
  destruct (skip_to_digit_first v) as [E | E].
  - rewrite E; discriminate.
  - rewrite (scan_d_at_digit _ E).
    pose proof (scan_digits_nonneg (skip_to_digit v) 0 (Z.le_refl 0)) as Hnn.
    destruct (scan_digits (skip_to_digit v) 0) as [w rest]; cbn [fst] in Hnn.
    destruct (in_int w) eqn:Hw; [|discriminate].
    destruct rest as [|c rest]; [discriminate|].
    destruct (Ascii.eqb c "."); [|discriminate].
    destruct (scan_d rest) as [w' r| | |] eqn:E'; try discriminate.
    intro H; injection H as <- <-.
    apply scan_d_in_int in E'.
    unfold in_int in Hw, E'.
    apply andb_true_iff in Hw; destruct Hw as [_ Hw]; apply Z.leb_le in Hw.
    apply andb_true_iff in E'; destruct E' as [E1 E2].
    apply Z.leb_le in E1; apply Z.leb_le in E2.
    lia.
Qed.

(** [%d] of a number that is not negative consists of digits, and they
    read back as the number. *)
Lemma scan_digits_fmt_d n :
  0 <= n <= INT_MAX -> scan_digits (fmt_d n) 0 = (n, "").
Proof.
  intro H; rewrite fmt_d_nonneg by lia.
  rewrite <- (app_nil_r (fmt_u n)) at 1.
  now apply scan_digits_fmt_u.
Qed.

(** [%02d] does not pad a number of three digits or more. *)
Lemma fmt_02d_long m :
  99 < m -> fmt_02d m = fmt_d m /\ (3 <= String.length (fmt_d m))%nat.
Proof.
  intro H.
  assert (Hlen : (3 <= String.length (fmt_d m))%nat).
  { rewrite fmt_d_nonneg by lia; unfold fmt_u.
    rewrite (utoa_succ 9).
    destruct (Z.ltb_spec m 10); [lia|].
    rewrite (utoa_succ 8).
    destruct (Z.ltb_spec (m / 10) 10) as [Hq|Hq].
    - exfalso; pose proof (Z.div_mod m 10);
        pose proof (Z.mod_pos_bound m 10); lia.
    - pose proof (length_utoa_succ 7 (m / 10 / 10)
                    (String (digit_char ((m / 10) mod 10))
                       (String (digit_char (m mod 10)) ""))) as L.
      cbn [String.length] in L; lia. }
  split; [|exact Hlen].
  unfold fmt_02d.
  destruct (Nat.ltb_spec (String.length (fmt_d m)) 2); [lia | reflexivity].
Qed.

(** [%02d] does not pad a negative number: the sign and one digit already
    fill the width. *)
Lemma fmt_02d_negative m :
  m < 0 -> fmt_02d m = fmt_d m /\ prefix "-" (fmt_d m) = true.
Proof.
  intro H.
  assert (E : fmt_d m = String "-" (fmt_u (- m))).
  { unfold fmt_d; destruct (Z.ltb_spec m 0); [reflexivity | lia]. }
  split.
  2: { rewrite E; cbn [prefix].
       destruct (ascii_dec "-" "-") as [_|F]; [|now elim F].
       now destruct (fmt_u (- m)). }
  unfold fmt_02d; rewrite E; cbn [String.length].
  pose proof (length_utoa_succ 9 (- m) "") as L; cbn [String.length] in L.
  fold (fmt_u (- m)) in L.
  destruct (Nat.ltb_spec (S (String.length (fmt_u (- m)))) 2);
    [lia | reflexivity].
Qed.

(** C5 (as the code has it).  When [sscanf] reads both numbers, the version
    is capped at the ceiling (4.30 on desktop, 3.20 on embedded): a version
    strictly above it gives exactly the ceiling's directive, any other
    version is kept, and no error is logged.  The directive is [#version],
    the major number in decimal, the minor number as [%02d] writes it, and
    " es" exactly when the backend is embedded and the major number is at
    least 3.  The minor number has exactly two digits, padded with a zero,
    only when it lies between 0 and 99 (4 and 30 give "430"); a minor number
    of 100 or more is written with all its digits, three at least, and a
    negative one with its minus sign and without padding.  The major number
    is never negative, because the text [sscanf] reads starts at a digit. *)
Theorem C5_version_capped_and_formatted gl this v major minor :
  glGetString_SHADING_LANGUAGE_VERSION gl = Some v ->
  sscanf_d_dot_d (skip_to_digit v) 0 0 = Returned (2, major, minor) ->
  let es := RenderAPI_eqb (m_render_api this) OpenGLES in
  exists M m,
    SetGLSLVersionString gl this =
      Returned (set_version_string (directive_text es M m) this, []) /\
    (newer_than major minor (ceiling es) -> (M, m) = ceiling es) /\
    (~ newer_than major minor (ceiling es) -> (M, m) = (major, minor)) /\
    ~ newer_than M m (ceiling es) /\
    directive_text false 4 30 = "#version 430" /\
    directive_text true 3 20 = "#version 320 es" /\
    (0 <= m <= 99 ->
     fmt_02d m = String (digit_char (m / 10)) (String (digit_char (m mod 10)) "")) /\
    (99 < m -> fmt_02d m = fmt_d m /\ (3 <= String.length (fmt_d m))%nat) /\
    (m < 0 -> fmt_02d m = fmt_d m /\ prefix "-" (fmt_d m) = true) /\
    0 <= M <= INT_MAX /\
    INT_MIN <= m <= INT_MAX /\
    scan_digits (fmt_d M) 0 = (M, "").
Proof.
  intros Hv Hscan es.
  destruct (cap_version es major minor) as [M m] eqn:Hcap.
  exists M, m.
  pose proof (cap_version_spec es major minor) as [Habove Hbelow].
  rewrite Hcap in Habove, Hbelow.
  assert (Hdec : newer_than major minor (ceiling es) \/
                 ~ newer_than major minor (ceiling es)).
  { unfold newer_than; lia. }
  assert (Hrange : 0 <= M <= INT_MAX /\ INT_MIN <= m <= INT_MAX).
  { destruct Hdec as [Hd|Hd].
    - pose proof (Habove Hd) as E; unfold ceiling in E.
      unfold INT_MIN, INT_MAX; destruct es; injection E as -> ->; lia.
    - injection (Hbelow Hd) as -> ->.
      exact (sscanf_parsed_range v major minor Hscan). }
  split; [|split; [exact Habove | split; [exact Hbelow|]]].
  - rewrite (SetGLSLVersionString_parsed gl this v major minor Hv Hscan).
    fold es; rewrite Hcap; reflexivity.
  - split; [|split; [reflexivity | split; [reflexivity |
      split; [apply fmt_02d_two_digits |
      split; [apply fmt_02d_long |
      split; [apply fmt_02d_negative |
      split; [apply Hrange |
      split; [apply Hrange | apply scan_digits_fmt_d, Hrange]]]]]]]].
    intro Hnew.
    destruct Hdec as [Hd|Hd].
    + pose proof (Habove Hd) as E.
      unfold newer_than, ceiling in Hnew, E.
      destruct es; injection E as -> ->; cbn [fst snd] in Hnew; lia.
    + apply Hd; injection (Hbelow Hd) as -> ->; exact Hnew.
Qed.

Lemma C5_version_capped_and_formatted_witness :
  SetGLSLVersionString (driver_reporting (Some "4.60 NVIDIA 535.54"))
    (generator OpenGL false false false "") =
  Returned (generator OpenGL false false false "#version 430", []).
Proof.
  destruct (C5_version_capped_and_formatted
              (driver_reporting (Some "4.60 NVIDIA 535.54"))
              (generator OpenGL false false false "")
              "4.60 NVIDIA 535.54" 4 60 eq_refl eq_refl)
    as (M & m & Hrun & Habove & _).
  assert (HM : (M, m) = (4, 30)).
  { apply Habove; right; split; [reflexivity | reflexivity]. }
  injection HM as -> ->; exact Hrun.
Defined.

(** C5, the claim as stated, fails: [sscanf] reads "3.100" in full, the
    version is below the ceiling, and the directive is [#version 3100],
    which is not the major number followed by two digits; for "4.-5" it is
    [#version 4-5]. *)
Lemma C5_minor_not_always_two_digits :
  sscanf_d_dot_d (skip_to_digit "3.100") 0 0 = Returned (2, 3, 100) /\
  new_ShaderGen (driver_reporting (Some "3.100")) OpenGL false =
    Returned (generator OpenGL false false false "#version 3100", []) /\
  (forall a b : ascii,
     "#version 3100" <> "#version " ++ fmt_d 3 ++ String a (String b "")) /\
  sscanf_d_dot_d (skip_to_digit "4.-5") 0 0 = Returned (2, 4, -5) /\
  new_ShaderGen (driver_reporting (Some "4.-5")) OpenGL false =
    Returned (generator OpenGL false false false "#version 4-5", []).
Proof.
  repeat split; try reflexivity.
  intros a b H; vm_compute in H; discriminate H.
Qed.

(** ** What the constructor resolves *)

Lemma new_ShaderGen_D3D11 gl dsb :
  new_ShaderGen gl D3D11 dsb =
  Returned (generator D3D11 dsb false (unassigned_binding_layout gl) "", []).
Proof. reflexivity. Qed.

Lemma new_ShaderGen_Vulkan gl dsb :
  new_ShaderGen gl Vulkan dsb = Returned (generator Vulkan dsb true true "", []).
Proof. reflexivity. Qed.

Lemma new_ShaderGen_GL gl api dsb g lg :
  is_GL api ->
  new_ShaderGen gl api dsb = Returned (g, lg) ->
  exists major minor,
    g = generator api dsb
          (GLAD_GL_ES_VERSION_3_2 gl || GLAD_GL_VERSION_3_2 gl)
          (UseGLSLBindingLayout gl)
          (version_directive (RenderAPI_eqb api OpenGLES) major minor).
Proof.
  intros Hapi H.
  unfold new_ShaderGen in H.
  assert (Hg : negb (RenderAPI_eqb api D3D11) = true /\
               RenderAPI_eqb api OpenGL || RenderAPI_eqb api OpenGLES = true /\
               RenderAPI_eqb api Vulkan = false)
    by (destruct Hapi; subst api; repeat split).
  destruct Hg as (Hg1 & Hg2 & Hg3).
  cbn [m_glsl m_render_api] in H; rewrite Hg1, Hg2 in H.
  destruct (SetGLSLVersionString gl _) as [[g0 lg0]| |] eqn:E; try discriminate.
  apply SetGLSLVersionString_directive in E.
  destruct E as (major & minor & ->).
  cbn [bind] in H; injection H as <- _.
  exists major, minor.
  unfold generator, set_binding_layout, set_interface_blocks,
    set_version_string, IsVulkan; cbn [m_render_api m_glsl
    m_supports_dual_source_blend m_use_glsl_interface_blocks
    m_use_glsl_binding_layout m_glsl_version_string].
  rewrite Hg1, Hg3; reflexivity.
Qed.

(** The constructor returns for every backend that is not a GL one, and for
    a GL one whenever the driver reports a version string in which the
    numbers [sscanf] converts fit an [int]; it stops at the assertion
    exactly when the string is missing. *)
Lemma new_ShaderGen_returns gl api dsb :
  (is_GL api ->
   exists v, glGetString_SHADING_LANGUAGE_VERSION gl = Some v /\
             sscanf_d_dot_d (skip_to_digit v) 0 0 <> Undefined) ->
  exists g lg, new_ShaderGen gl api dsb = Returned (g, lg).
Proof.
  intro H; destruct api.
  - rewrite new_ShaderGen_D3D11; eauto.
  - rewrite new_ShaderGen_Vulkan; eauto.
  - destruct H as (v & Hv & Hdef); [now left|].
    unfold new_ShaderGen; cbn [m_glsl m_render_api RenderAPI_eqb negb orb].
    destruct (SetGLSLVersionString_returns gl
                {| m_render_api := OpenGL; m_glsl := true;
                   m_supports_dual_source_blend := dsb;
                   m_use_glsl_interface_blocks := false;
                   m_use_glsl_binding_layout := unassigned_binding_layout gl;
                   m_glsl_version_string := "" |} v Hv Hdef)
      as (M & m & lg & ->).
    cbn [bind]; eauto.
  - destruct H as (v & Hv & Hdef); [now right|].
    unfold new_ShaderGen; cbn [m_glsl m_render_api RenderAPI_eqb negb orb].
    destruct (SetGLSLVersionString_returns gl
                {| m_render_api := OpenGLES; m_glsl := true;
                   m_supports_dual_source_blend := dsb;
                   m_use_glsl_interface_blocks := false;
                   m_use_glsl_binding_layout := unassigned_binding_layout gl;
                   m_glsl_version_string := "" |} v Hv Hdef)
      as (M & m & lg & ->).
    cbn [bind]; eauto.
Qed.

Lemma new_ShaderGen_missing_version gl api dsb :
  is_GL api ->
  glGetString_SHADING_LANGUAGE_VERSION gl = None ->
  new_ShaderGen gl api dsb = AssertFailed.
Proof.
  intros [-> | ->] H; unfold new_ShaderGen, SetGLSLVersionString;
    cbn [m_glsl m_render_api RenderAPI_eqb negb orb]; now rewrite H.
Qed.

(** C6.  After construction, [m_use_glsl_interface_blocks] is true exactly
    when the backend is Vulkan, or the backend is desktop or embedded GL
    and the queried version is at least 3.2 (one of the loader's two 3.2
    flags is set).  For a GL context of version 3.1 it is false, for one
    of version 3.2 it is true. *)
Theorem C6_interface_blocks_resolved gl api dsb g lg :
  new_ShaderGen gl api dsb = Returned (g, lg) ->
  (m_use_glsl_interface_blocks g = true <->
   api = Vulkan \/
   (is_GL api /\
    (GLAD_GL_ES_VERSION_3_2 gl = true \/ GLAD_GL_VERSION_3_2 gl = true))) /\
  (is_GL api -> loaded_for api 3 1 gl -> m_use_glsl_interface_blocks g = false) /\
  (is_GL api -> loaded_for api 3 2 gl -> m_use_glsl_interface_blocks g = true) /\
  (forall major minor, is_GL api -> loaded_for api major minor gl ->
     (m_use_glsl_interface_blocks g = true <->
      major > 3 \/ (major = 3 /\ minor >= 2))).
Proof.
  intro H.
  assert (Hflag : m_use_glsl_interface_blocks g =
                  match api with
                  | D3D11 => false
                  | Vulkan => true
                  | _ => GLAD_GL_ES_VERSION_3_2 gl || GLAD_GL_VERSION_3_2 gl
                  end).
  { destruct api.
    - rewrite new_ShaderGen_D3D11 in H; now injection H as <- _.
    - rewrite new_ShaderGen_Vulkan in H; now injection H as <- _.
    - destruct (new_ShaderGen_GL gl OpenGL dsb g lg (or_introl eq_refl) H)
        as (M & m & ->); reflexivity.
    - destruct (new_ShaderGen_GL gl OpenGLES dsb g lg (or_intror eq_refl) H)
        as (M & m & ->); reflexivity. }
  rewrite Hflag; clear Hflag H.
  assert (Hloaded : forall major minor, is_GL api ->
            loaded_for api major minor gl ->
            GLAD_GL_ES_VERSION_3_2 gl || GLAD_GL_VERSION_3_2 gl =
            version_at_least major minor 3 2).
  { intros major minor Hapi [H1 H2]; rewrite H1, H2.
    destruct Hapi; subst api; cbn [RenderAPI_eqb andb orb];
      now rewrite ?orb_false_r. }
  split; [|split; [|split]].
  - split.
    + unfold is_GL; destruct api; try discriminate; auto;
        intro E; apply orb_true_iff in E; right; split; auto.
    + unfold is_GL; intros [E | [[E | E] F]]; subst api; try discriminate;
        try reflexivity; apply orb_true_iff; exact F.
  - intros Hapi Hl; pose proof (Hloaded 3 1 Hapi Hl) as E.
    destruct Hapi; subst api; exact E.
  - intros Hapi Hl; pose proof (Hloaded 3 2 Hapi Hl) as E.
    destruct Hapi; subst api; exact E.
  - intros major minor Hapi Hl.
    assert (E : match api with
                | D3D11 => false
                | Vulkan => true
                | _ => GLAD_GL_ES_VERSION_3_2 gl || GLAD_GL_VERSION_3_2 gl
                end = version_at_least major minor 3 2).
    { rewrite <- (Hloaded major minor Hapi Hl); destruct Hapi; now subst api. }
    rewrite E; unfold version_at_least.
    rewrite orb_true_iff, andb_true_iff, Z.gtb_ltb, Z.ltb_lt, Z.eqb_eq, Z.geb_le.
    lia.
Qed.

Lemma C6_interface_blocks_resolved_witness :
  m_use_glsl_interface_blocks (generator OpenGL false true false "#version 150") = true /\
  m_use_glsl_interface_blocks (generator OpenGLES false false true "#version 310 es") = false.
Proof.
  split.
  - apply (C6_interface_blocks_resolved
             (context OpenGL 3 2 "1.50") OpenGL false
             (generator OpenGL false true false "#version 150") [] eq_refl).
    + left; reflexivity.
    + split; reflexivity.
  - apply (C6_interface_blocks_resolved
             (context OpenGLES 3 1 "OpenGL ES GLSL ES 3.10") OpenGLES false
             (generator OpenGLES false false true "#version 310 es") [] eq_refl).
    + right; reflexivity.
    + split; reflexivity.
Defined.

(** ** Declarations *)

Lemma for_u32_0 {S : Type} (body : Z -> S -> S) (s : S) : for_u32 0 body s = s.
Proof. reflexivity. Qed.

Lemma for_u32_1 {S : Type} (body : Z -> S -> S) (s : S) :
  for_u32 1 body s = body 0 s.
Proof. reflexivity. Qed.

Lemma for_u32_2 {S : Type} (body : Z -> S -> S) (s : S) :
  for_u32 2 body s = body 1 (body 0 s).
Proof. reflexivity. Qed.

(** The digits of a [u32] read back as the number, so two different
    numbers are never printed alike. *)
Lemma scan_digits_fmt_u32 n :
  0 <= n < UINT32_MOD -> scan_digits (fmt_u n) 0 = (n, "").
Proof.
  intro H; unfold fmt_u; rewrite scan_digits_utoa; [reflexivity|].
  unfold UINT32_MOD in H; change (10 ^ Z.of_nat 10) with 10000000000; lia.
Qed.

Lemma next_slot_differs index :
  0 <= index < UINT32_MOD ->
  fmt_u ((index + 1) mod UINT32_MOD) <> fmt_u index.
Proof.
  intros H E.
  assert (Hm : 0 <= (index + 1) mod UINT32_MOD < UINT32_MOD)
    by (apply Z.mod_pos_bound; unfold UINT32_MOD; lia).
  pose proof (scan_digits_fmt_u32 _ Hm) as E1.
  pose proof (scan_digits_fmt_u32 _ H) as E2.
  rewrite E, E2 in E1; injection E1 as E1.
  assert (Hc : index + 1 < UINT32_MOD \/ index + 1 = UINT32_MOD) by lia.
  destruct Hc as [Hc|Hc].
  - rewrite Z.mod_small in E1 by lia; lia.
  - rewrite Hc, Z.mod_same in E1 by (unfold UINT32_MOD; lia).
    unfold UINT32_MOD in *; lia.
Qed.

(** What the constructor leaves decides which branch a declaration
    takes. *)
Lemma constructed_dialect gl api dsb g lg :
  new_ShaderGen gl api dsb = Returned (g, lg) ->
  m_glsl g = negb (RenderAPI_eqb api D3D11) /\
  IsVulkan g = RenderAPI_eqb api Vulkan /\
  (is_GL api -> m_use_glsl_binding_layout g = UseGLSLBindingLayout gl).
Proof.
  intro H; destruct api.
  - rewrite new_ShaderGen_D3D11 in H; injection H as <- _.
    repeat split; intros [F|F]; discriminate F.
  - rewrite new_ShaderGen_Vulkan in H; injection H as <- _.
    repeat split; intros [F|F]; discriminate F.
  - destruct (new_ShaderGen_GL gl OpenGL dsb g lg (or_introl eq_refl) H)
      as (M & m & ->).
    repeat split.
  - destruct (new_ShaderGen_GL gl OpenGLES dsb g lg (or_intror eq_refl) H)
      as (M & m & ->).
    repeat split.
Qed.

(** C3 (as the code has it).  On Vulkan the texture declaration carries set
    0 and the binding one slot after the logical index (in 32-bit
    arithmetic); the texel-buffer declaration carries set 0 and the logical
    index itself, with no offset, so the two never carry the same binding
    for the same index.  In every other state the two declarations differ
    only in the sample type and the buffer syntax: on a GL backend both
    carry [layout(binding = index)] when binding layout is in use and no
    qualifier otherwise, the texture as [sampler2D] and the texel buffer
    as a [samplerBuffer] of the sample type; in HLSL both take register
    [t] of the index, the texture as [Texture2D] together with a
    [SamplerState] in register [s], the texel buffer as a [Buffer] of the
    sample type.  A constructed generator is in the Vulkan state exactly
    for the Vulkan backend and in the HLSL state exactly for D3D11. *)
Theorem C3_texture_and_texel_buffer_bindings this ss name index
    is_int is_unsigned :
  let texture := DeclareTexture this ss name index in
  let texel_buffer :=
    DeclareTextureBuffer this ss name index is_int is_unsigned in
  (m_glsl this = true -> IsVulkan this = true ->
   texture =
     ss ++ "layout(set = 0, binding = " ++
     fmt_u ((index + 1) mod UINT32_MOD) ++
     ") uniform sampler2D " ++ name ++ ";" ++ nl /\
   texel_buffer =
     ss ++ "layout(set = 0, binding = " ++ fmt_u index ++ ") uniform " ++
     sampler_prefix is_int is_unsigned ++ "samplerBuffer " ++ name ++ ";" ++ nl) /\
  (m_glsl this = true -> IsVulkan this = false ->
   m_use_glsl_binding_layout this = true ->
   texture =
     ss ++ "layout(binding = " ++ fmt_u index ++ ") uniform sampler2D " ++
     name ++ ";" ++ nl /\
   texel_buffer =
     ss ++ "layout(binding = " ++ fmt_u index ++ ") uniform " ++
     sampler_prefix is_int is_unsigned ++ "samplerBuffer " ++ name ++ ";" ++ nl) /\
  (m_glsl this = true -> IsVulkan this = false ->
   m_use_glsl_binding_layout this = false ->
   texture = ss ++ "uniform sampler2D " ++ name ++ ";" ++ nl /\
   texel_buffer =
     ss ++ "uniform " ++ sampler_prefix is_int is_unsigned ++
     "samplerBuffer " ++ name ++ ";" ++ nl) /\
  (m_glsl this = false ->
   texture =
     ss ++ "Texture2D " ++ name ++ " : register(t" ++ fmt_u index ++ ");" ++ nl ++
     "SamplerState " ++ name ++ "_ss : register(s" ++ fmt_u index ++ ");" ++ nl /\
   texel_buffer =
     ss ++ "Buffer<" ++ buffer_element is_int is_unsigned ++ "> " ++ name ++
     " : register(t" ++ fmt_u index ++ ");" ++ nl) /\
  (0 <= index < UINT32_MOD - 1 -> (index + 1) mod UINT32_MOD = index + 1) /\
  (index = UINT32_MOD - 1 -> (index + 1) mod UINT32_MOD = 0) /\
  (0 <= index < UINT32_MOD ->
   fmt_u ((index + 1) mod UINT32_MOD) <> fmt_u index) /\
  (forall gl api dsb lg,
     new_ShaderGen gl api dsb = Returned (this, lg) ->
     m_glsl this = negb (RenderAPI_eqb api D3D11) /\
     IsVulkan this = RenderAPI_eqb api Vulkan /\
     (is_GL api -> m_use_glsl_binding_layout this = UseGLSLBindingLayout gl)).
Proof.
  intros texture texel_buffer; subst texture texel_buffer.
  unfold DeclareTexture, DeclareTextureBuffer, sampler_prefix, buffer_element.
  repeat match goal with |- _ /\ _ => split end.
  - intros -> ->; split; now rewrite !app_assoc.
  - intros -> -> ->; split; now rewrite !app_assoc.
  - intros -> -> ->; split; now rewrite !app_assoc.
  - intros ->; split; now rewrite !app_assoc.
  - intro Hi; apply Z.mod_small; lia.
  - intros ->; replace (UINT32_MOD - 1 + 1) with UINT32_MOD by lia.
    apply Z.mod_same; unfold UINT32_MOD; lia.
  - apply next_slot_differs.
  - intros gl api dsb lg; apply constructed_dialect.
Qed.

Lemma C3_texture_and_texel_buffer_bindings_witness :
  (DeclareTexture (generator Vulkan false true true "") "" "samp0" 0 =
     "layout(set = 0, binding = 1) uniform sampler2D samp0;" ++ nl /\
   DeclareTextureBuffer (generator Vulkan false true true "") "" "samp0" 0
     false false =
     "layout(set = 0, binding = 0) uniform samplerBuffer samp0;" ++ nl) /\
  (DeclareTexture (generator D3D11 false false false "") "" "samp0" 0 =
     "Texture2D samp0 : register(t0);" ++ nl ++
     "SamplerState samp0_ss : register(s0);" ++ nl /\
   DeclareTextureBuffer (generator D3D11 false false false "") "" "samp0" 0
     true true =
     "Buffer<uint4> samp0 : register(t0);" ++ nl).
Proof.
  destruct (C3_texture_and_texel_buffer_bindings
              (generator Vulkan false true true "") "" "samp0" 0 false false)
    as (Hvulkan & _).
  destruct (C3_texture_and_texel_buffer_bindings
              (generator D3D11 false false false "") "" "samp0" 0 true true)
    as (_ & _ & _ & Hhlsl & _).
  split; [exact (Hvulkan eq_refl eq_refl) | exact (Hhlsl eq_refl)].
Defined.

(** C3, the claim as stated, fails: for the logical index 0 the texture gets
    binding 1, and the texel buffer gets binding 0, not 1. *)
Lemma C3_texel_buffer_has_no_offset :
  new_ShaderGen (driver_reporting None) Vulkan false =
    Returned (generator Vulkan false true true "", []) /\
  DeclareTexture (generator Vulkan false true true "") "" "tex" 0 =
    "layout(set = 0, binding = 1) uniform sampler2D tex;" ++ nl /\
  DeclareTextureBuffer (generator Vulkan false true true "") "" "buf" 0 false false =
    "layout(set = 0, binding = 0) uniform samplerBuffer buf;" ++ nl /\
  DeclareTextureBuffer (generator Vulkan false true true "") "" "buf" 0 false false <>
    "layout(set = 0, binding = " ++ fmt_u ((0 + 1) mod UINT32_MOD) ++
    ") uniform samplerBuffer buf;" ++ nl.
Proof. repeat split; discriminate. Qed.

(** ** The fragment entry point *)

(** Names the text written before [marker] as the witness of the goal. *)
Ltac written_before marker :=
  lazymatch goal with
  | |- context [?P << marker] => exists P
  end.

(** The same, for the text before [marker] followed by the index 0. *)
Ltac written_before_first marker :=
  lazymatch goal with
  | |- context [?P << marker << fmt_u 0] => exists P
  end.

Ltac unfold_fragment :=
  unfold DeclareFragmentEntryPoint;
  cbn [generator m_glsl m_render_api RenderAPI_eqb negb
       m_use_glsl_binding_layout m_supports_dual_source_blend
       m_use_glsl_interface_blocks IsVulkan bind Assert].

(** In the GLSL branch with binding layout and without dual-source blend,
    the call stops at the assertion for more than one colour output. *)
Lemma fragment_assertion this ss ci ti add fc n depth :
  m_glsl this = true ->
  m_use_glsl_binding_layout this = true ->
  m_supports_dual_source_blend this = false ->
  1 < n ->
  DeclareFragmentEntryPoint this ss ci ti add fc n depth = AssertFailed.
Proof.
  intros Hg Hb Hd Hn.
  unfold DeclareFragmentEntryPoint; rewrite Hg, Hb, Hd.
  assert (E : (n <=? 1) = false) by (apply Z.leb_gt; exact Hn).
  rewrite E; reflexivity.
Qed.

(** C10.  With binding layout in use and dual-source blend unsupported, one
    colour output is declared with the text [layout(location = 00)], the
    fixed text [layout(location = 0] followed by the output's index 0, and
    not with [layout(location = 0)].  That line is written for no other
    number of outputs: none writes no declaration, and more than one stops
    at the assertion. *)
Theorem C10_single_output_location_text this ss ci ti add fc depth :
  m_glsl this = true ->
  m_use_glsl_binding_layout this = true ->
  m_supports_dual_source_blend this = false ->
  exists pre,
    DeclareFragmentEntryPoint this ss ci ti add fc 1 depth =
      Returned (pre ++ "layout(location = 00) out float4 o_col0;" ++ nl ++
                nl ++ "void main()" ++ nl) /\
    DeclareFragmentEntryPoint this ss ci ti add fc 1 depth <>
      Returned (pre ++ "layout(location = 0) out float4 o_col0;" ++ nl ++
                nl ++ "void main()" ++ nl) /\
    DeclareFragmentEntryPoint this ss ci ti add fc 0 depth =
      Returned (pre ++ nl ++ "void main()" ++ nl) /\
    (forall n, 1 < n ->
       DeclareFragmentEntryPoint this ss ci ti add fc n depth = AssertFailed).
Proof.
  intros Hg Hb Hd.
  assert (Hone : exists pre,
    DeclareFragmentEntryPoint this ss ci ti add fc 1 depth =
      Returned (pre ++ "layout(location = 00) out float4 o_col0;" ++ nl ++
                nl ++ "void main()" ++ nl) /\
    DeclareFragmentEntryPoint this ss ci ti add fc 0 depth =
      Returned (pre ++ nl ++ "void main()" ++ nl)).
  { unfold DeclareFragmentEntryPoint; rewrite Hg, Hb, Hd.
    cbn [bind Assert Z.leb Z.compare Pos.compare Pos.compare_cont].
    rewrite for_u32_1, for_u32_0.
    written_before "layout(location = 0".
    split; rewrite !app_assoc; reflexivity. }
  destruct Hone as (pre & H1 & H0).
  exists pre; split; [exact H1 | split; [| split; [exact H0|]]].
  - rewrite H1; intro E; injection E as E.
    apply app_inv_head in E; discriminate E.
  - intros n Hn; now apply fragment_assertion.
Qed.

Lemma C10_single_output_location_text_witness :
  exists pre,
    DeclareFragmentEntryPoint (generator Vulkan false true true "") ""
      0 1 [] false 1 true =
    Returned (pre ++ "layout(location = 00) out float4 o_col0;" ++ nl ++
              nl ++ "void main()" ++ nl).
Proof.
  destruct (C10_single_output_location_text
              (generator Vulkan false true true "") "" 0 1 [] false true
              eq_refl eq_refl eq_refl) as (pre & H & _).
  exists pre; exact H.
Defined.

(** C2 (as the code has it).  With dual-source blend unsupported, a request
    for two colour outputs stops at the assertion exactly when the generator
    writes GLSL with binding layout: always on Vulkan, and on a GL backend
    when binding layout resolved true.  On a GL backend without binding
    layout, and on D3D11, the call returns and both outputs are declared. *)
Theorem C2_assertion_only_with_binding_layout gl api g lg ss ci ti add fc depth :
  new_ShaderGen gl api false = Returned (g, lg) ->
  (DeclareFragmentEntryPoint g ss ci ti add fc 2 depth = AssertFailed <->
   api = Vulkan \/ (is_GL api /\ UseGLSLBindingLayout gl = true)) /\
  (is_GL api -> UseGLSLBindingLayout gl = false ->
   exists pre,
     DeclareFragmentEntryPoint g ss ci ti add fc 2 depth =
     Returned (pre ++ "out float4 o_col0;" ++ nl ++ "out float4 o_col1;" ++ nl ++
               nl ++ "void main()" ++ nl)) /\
  (api = D3D11 ->
   exists pre,
     DeclareFragmentEntryPoint g ss ci ti add fc 2 depth =
     Returned (pre ++ "  out float4 o_col0 : SV_Target0," ++ nl ++
               "  out float4 o_col1 : SV_Target1)" ++ nl)).
Proof.
  intro H.
  assert (Hglsl_free : forall ib v a, is_GL a ->
    exists pre,
      DeclareFragmentEntryPoint (generator a false ib false v) ss ci ti add fc 2 depth =
      Returned (pre ++ "out float4 o_col0;" ++ nl ++ "out float4 o_col1;" ++ nl ++
                nl ++ "void main()" ++ nl)).
  { intros ib v a [-> | ->]; unfold_fragment; rewrite for_u32_2;
      written_before_first "out float4 o_col"; rewrite !app_assoc; reflexivity. }
  assert (Hhlsl : forall ib bl v,
    exists pre,
      DeclareFragmentEntryPoint (generator D3D11 false ib bl v) ss ci ti add fc 2 depth =
      Returned (pre ++ "  out float4 o_col0 : SV_Target0," ++ nl ++
                "  out float4 o_col1 : SV_Target1)" ++ nl)).
  { intros ib bl v; unfold_fragment; rewrite for_u32_2.
    cbv beta; change (0 =? (2 - 1) mod UINT32_MOD) with false;
      change (1 =? (2 - 1) mod UINT32_MOD) with true; cbv iota.
    written_before_first "  out float4 o_col"; rewrite !app_assoc; reflexivity. }
  destruct api.
  - rewrite new_ShaderGen_D3D11 in H; injection H as <- _.
    destruct (Hhlsl false (unassigned_binding_layout gl) "") as (pre & E).
    split; [|split].
    + rewrite E; split; [discriminate|].
      unfold is_GL; intros [F | [[F | F] _]]; discriminate F.
    + unfold is_GL; intros [F | F]; discriminate F.
    + intros _; exists pre; exact E.
  - rewrite new_ShaderGen_Vulkan in H; injection H as <- _.
    split; [|split].
    + split; [now left|]; intros _.
      apply fragment_assertion; [reflexivity .. | lia].
    + unfold is_GL; intros [F | F]; discriminate F.
    + discriminate.
  - destruct (new_ShaderGen_GL gl OpenGL false g lg (or_introl eq_refl) H)
      as (M & m & ->).
    split; [|split].
    + destruct (UseGLSLBindingLayout gl) eqn:Hbl.
      * split; [intros _; right; split; [now left | reflexivity]|]; intros _.
        apply fragment_assertion; [reflexivity .. | lia].
      * destruct (Hglsl_free (GLAD_GL_ES_VERSION_3_2 gl || GLAD_GL_VERSION_3_2 gl)
                    (version_directive (RenderAPI_eqb OpenGL OpenGLES) M m)
                    OpenGL (or_introl eq_refl)) as (pre & E).
        rewrite E; split; [discriminate|].
        intros [F | [_ F]]; discriminate F.
    + intros _ Hbl; rewrite Hbl; apply Hglsl_free; now left.
    + discriminate.
  - destruct (new_ShaderGen_GL gl OpenGLES false g lg (or_intror eq_refl) H)
      as (M & m & ->).
    split; [|split].
    + destruct (UseGLSLBindingLayout gl) eqn:Hbl.
      * split; [intros _; right; split; [now right | reflexivity]|]; intros _.
        apply fragment_assertion; [reflexivity .. | lia].
      * destruct (Hglsl_free (GLAD_GL_ES_VERSION_3_2 gl || GLAD_GL_VERSION_3_2 gl)
                    (version_directive (RenderAPI_eqb OpenGLES OpenGLES) M m)
                    OpenGLES (or_intror eq_refl)) as (pre & E).
        rewrite E; split; [discriminate|].
        intros [F | [_ F]]; discriminate F.
    + intros _ Hbl; rewrite Hbl; apply Hglsl_free; now right.
    + discriminate.
Qed.

Lemma C2_assertion_only_with_binding_layout_witness :
  DeclareFragmentEntryPoint (generator Vulkan false true true "") ""
    0 1 [] false 2 false = AssertFailed.
Proof.
  apply (C2_assertion_only_with_binding_layout
           (driver_reporting None) Vulkan (generator Vulkan false true true "")
           [] "" 0 1 [] false false eq_refl).
  left; reflexivity.
Defined.

(** C2, the claim as stated, fails: with dual-source blend unsupported, two
    colour outputs are accepted on D3D11, and on desktop GL without binding
    layout. *)
Lemma C2_two_outputs_accepted_without_assertion :
  new_ShaderGen (driver_reporting None) D3D11 false =
    Returned (generator D3D11 false false false "", []) /\
  DeclareFragmentEntryPoint (generator D3D11 false false false "") ""
    0 1 [] false 2 false =
    Returned ("void main(" ++ nl ++
              "  in float2 v_tex0 : TEXCOORD0," ++ nl ++
              "  out float4 o_col0 : SV_Target0," ++ nl ++
              "  out float4 o_col1 : SV_Target1)" ++ nl) /\
  new_ShaderGen (driver_reporting (Some "1.30")) OpenGL false =
    Returned (generator OpenGL false false false "#version 130", []) /\
  DeclareFragmentEntryPoint (generator OpenGL false false false "#version 130") ""
    0 1 [] false 2 false =
    Returned ("in float2 v_tex0;" ++ nl ++
              "out float4 o_col0;" ++ nl ++
              "out float4 o_col1;" ++ nl ++
              nl ++ "void main()" ++ nl) /\
  DeclareFragmentEntryPoint (generator D3D11 false false false "") ""
    0 1 [] false 2 false <> AssertFailed /\
  DeclareFragmentEntryPoint (generator OpenGL false false false "#version 130") ""
    0 1 [] false 2 false <> AssertFailed.
Proof. repeat split; discriminate. Qed.

(** *** The HLSL parameter list *)

Lemma for_u32_succ {S : Type} (n : Z) (body : Z -> S -> S) (s : S) :
  0 <= n -> for_u32 (n + 1) body s = body n (for_u32 n body s).
Proof.
  intro Hn; unfold for_u32.
  rewrite Z2Nat.inj_add, Nat.add_1_r by lia.
  rewrite seq_S, fold_left_app; cbn [fold_left Nat.add].
  now rewrite Z2Nat.id.
Qed.

Lemma for_u32_last {S : Type} (n : Z) (body : Z -> S -> S) (s : S) :
  0 < n -> for_u32 n body s = body (n - 1) (for_u32 (n - 1) body s).
Proof.
  intro Hn; rewrite <- for_u32_succ by lia; f_equal; lia.
Qed.

(** With at least one colour output, or with a depth output, the list ends
    with its closing parenthesis. *)
Lemma hlsl_parameter_list_closed this ss ci ti add fc n depth :
  m_glsl this = false ->
  (0 < n < UINT32_MOD \/ (n = 0 /\ depth = true)) ->
  exists pre,
    DeclareFragmentEntryPoint this ss ci ti add fc n depth =
    Returned (pre ++ ")" ++ nl).
Proof.
  intros Hg Hn.
  unfold DeclareFragmentEntryPoint; rewrite Hg.
  destruct Hn as [Hn | [-> ->]].
  - rewrite for_u32_last by lia; cbv beta.
    rewrite (Z.mod_small (n - 1)), Z.eqb_refl by lia.
    lazymatch goal with
    | |- exists pre, Returned (?P << ?a << ?b) = _ =>
        exists P; now rewrite (app_assoc P a b)
    end.
  - cbn [Z.gtb Z.compare]; rewrite for_u32_0.
    lazymatch goal with
    | |- exists pre, Returned (?P << ?a << ?b) = _ =>
        exists P; now rewrite (app_assoc P a b)
    end.
Qed.

(** C4 (the code departs from it).  The claim: the HLSL parameter list is
    always well punctuated, also for no colour output and no depth output.
    In that case the code writes a comma after the last parameter and never
    writes the closing parenthesis; with an output present the list is
    closed. *)
Theorem C4_hlsl_parameter_list_left_open :
  DeclareFragmentEntryPoint (generator D3D11 false false false "") ""
    0 1 [] false 0 false =
    Returned ("void main(" ++ nl ++
              "  in float2 v_tex0 : TEXCOORD0," ++ nl) /\
  DeclareFragmentEntryPoint (generator D3D11 false false false "") ""
    0 0 [] false 0 false =
    Returned ("void main(" ++ nl) /\
  DeclareFragmentEntryPoint (generator D3D11 false false false "") ""
    0 1 [] false 0 true =
    Returned ("void main(" ++ nl ++
              "  in float2 v_tex0 : TEXCOORD0," ++ nl ++
              "  out float o_depth : SV_Depth)" ++ nl) /\
  DeclareFragmentEntryPoint (generator D3D11 false false false "") ""
    0 1 [] false 1 false =
    Returned ("void main(" ++ nl ++
              "  in float2 v_tex0 : TEXCOORD0," ++ nl ++
              "  out float4 o_col0 : SV_Target0)" ++ nl).
Proof. repeat split. Qed.

(** ** The header *)

Lemma DefineMacro_line ss name enabled :
  DefineMacro ss name enabled = ss ++ macro_line name enabled ++ nl.
Proof.
  unfold DefineMacro, macro_line; rewrite !app_assoc.
  now destruct enabled.
Qed.

Lemma lines_version tail rest :
  all_chars not_LF tail = true ->
  lines ("#version " ++ tail ++ nl ++ nl ++ rest) =
  ("#version " ++ tail) :: "" :: lines rest.
Proof.
  intro Htail.
  rewrite <- app_assoc.
  change (nl ++ nl ++ rest) with (String LF ("" ++ String LF rest)).
  rewrite lines_app by (rewrite all_chars_app, Htail; reflexivity).
  rewrite lines_app by reflexivity.
  reflexivity.
Qed.

Ltac unfold_header :=
  unfold WriteHeader, DefineMacro;
  cbn [generator m_glsl m_render_api RenderAPI_eqb negb orb BoolToUInt32
       m_glsl_version_string m_use_glsl_binding_layout].

(** The header of a backend without a driver-reported version. *)
Lemma header_without_driver_version gl api dsb ib bl v ss :
  api = D3D11 \/ api = Vulkan ->
  exists header,
    WriteHeader gl (generator api dsb ib bl v) ss = ss ++ header /\
    filter is_backend_macro (lines header) = backend_macros api.
Proof.
  intros [-> | ->]; unfold_header; rewrite !app_assoc;
    eexists; (split; [reflexivity|]); vm_compute; reflexivity.
Qed.

(** The header of a GL backend, whose first line is the directive. *)
Lemma header_with_driver_version gl api dsb ib bl tail ss :
  is_GL api ->
  all_chars not_LF tail = true ->
  exists header,
    WriteHeader gl (generator api dsb ib bl ("#version " ++ tail)) ss =
      ss ++ header /\
    filter is_backend_macro (lines header) = backend_macros api.
Proof.
  intros [-> | ->] Htail; unfold_header.
  - destruct (bl && negb (GLAD_GL_VERSION_4_3 gl));
      destruct (negb (GLAD_GL_VERSION_3_2 gl));
      destruct (negb (GLAD_GL_VERSION_4_3 gl) &&
                negb (GLAD_GL_ES_VERSION_3_1 gl) &&
                GLAD_GL_ARB_shader_storage_buffer_object gl);
      rewrite !app_assoc; eexists; (split; [reflexivity|]);
      rewrite lines_version by exact Htail;
      rewrite !filter_skip by reflexivity;
      vm_compute; reflexivity.
  - destruct (GLAD_GL_EXT_blend_func_extended gl);
      destruct (GLAD_GL_ES_VERSION_3_2 gl);
      rewrite !app_assoc; eexists; (split; [reflexivity|]);
      rewrite lines_version by exact Htail;
      rewrite !filter_skip by reflexivity;
      vm_compute; reflexivity.
Qed.

(** C7.  Whatever the backend and the feature flags, the header has exactly
    four lines that define a backend-identity macro: [API_OPENGL],
    [API_OPENGL_ES], [API_D3D11] and [API_VULKAN], in this order, each
    defined as 0 or 1, and exactly one of them, the one of the active
    backend, as 1. *)
Theorem C7_backend_identity_macros gl api dsb g lg gl' ss :
  new_ShaderGen gl api dsb = Returned (g, lg) ->
  exists header,
    WriteHeader gl' g ss = ss ++ header /\
    filter is_backend_macro (lines header) =
      [macro_line "API_OPENGL" (RenderAPI_eqb api OpenGL);
       macro_line "API_OPENGL_ES" (RenderAPI_eqb api OpenGLES);
       macro_line "API_D3D11" (RenderAPI_eqb api D3D11);
       macro_line "API_VULKAN" (RenderAPI_eqb api Vulkan)] /\
    (forall name enabled,
       macro_line name enabled = "#define " ++ name ++ " 1" /\ enabled = true \/
       macro_line name enabled = "#define " ++ name ++ " 0" /\ enabled = false) /\
    BoolToUInt32 (RenderAPI_eqb api OpenGL) +
    BoolToUInt32 (RenderAPI_eqb api OpenGLES) +
    BoolToUInt32 (RenderAPI_eqb api D3D11) +
    BoolToUInt32 (RenderAPI_eqb api Vulkan) = 1.
Proof.
  intro H.
  assert (Hheader : exists header,
            WriteHeader gl' g ss = ss ++ header /\
            filter is_backend_macro (lines header) = backend_macros api).
  { destruct api.
    - rewrite new_ShaderGen_D3D11 in H; injection H as <- _.
      apply header_without_driver_version; now left.
    - rewrite new_ShaderGen_Vulkan in H; injection H as <- _.
      apply header_without_driver_version; now right.
    - destruct (new_ShaderGen_GL gl OpenGL dsb g lg (or_introl eq_refl) H)
        as (M & m & ->).
      destruct (version_directive_shape (RenderAPI_eqb OpenGL OpenGLES) M m)
        as (tail & -> & Htail).
      apply header_with_driver_version; [now left | exact Htail].
    - destruct (new_ShaderGen_GL gl OpenGLES dsb g lg (or_intror eq_refl) H)
        as (M & m & ->).
      destruct (version_directive_shape (RenderAPI_eqb OpenGLES OpenGLES) M m)
        as (tail & -> & Htail).
      apply header_with_driver_version; [now right | exact Htail]. }
  destruct Hheader as (header & Hw & Hf).
  exists header; split; [exact Hw | split; [exact Hf | split]].
  - intros name [|]; [left | right]; split; reflexivity.
  - destruct api; reflexivity.
Qed.

Lemma C7_backend_identity_macros_witness :
  exists header,
    WriteHeader (context OpenGL 4 6 "4.60")
      (generator OpenGL false true true "#version 430") "" = header /\
    filter is_backend_macro (lines header) =
      ["#define API_OPENGL 1"; "#define API_OPENGL_ES 0";
       "#define API_D3D11 0"; "#define API_VULKAN 0"].
Proof.
  destruct (C7_backend_identity_macros
              (context OpenGL 4 6 "4.60") OpenGL false
              (generator OpenGL false true true "#version 430") []
              (context OpenGL 4 6 "4.60") "" eq_refl)
    as (header & Hw & Hf & _).
  exists header; split; [exact Hw | exact Hf].
Defined.

(** ** The assembled shaders *)

(** On desktop GL the header defines [API_OPENGL] as 1. *)
Lemma desktop_header_defines_API_OPENGL gl dsb ib bl tail :
  contains (macro_line "API_OPENGL" true ++ nl)
    (WriteHeader gl (generator OpenGL dsb ib bl ("#version " ++ tail)) "") = true.
Proof.
  unfold_header.
  destruct (bl && negb (GLAD_GL_VERSION_4_3 gl));
    destruct (negb (GLAD_GL_VERSION_3_2 gl));
    destruct (negb (GLAD_GL_VERSION_4_3 gl) &&
              negb (GLAD_GL_ES_VERSION_3_1 gl) &&
              GLAD_GL_ARB_shader_storage_buffer_object gl);
    rewrite !app_assoc; do 3 apply contains_app_l;
    vm_compute; reflexivity.
Qed.

(** The vertex entry point of the full-screen quad only appends. *)
Lemma screen_quad_entry_appends this ss :
  exists text,
    DeclareVertexEntryPoint this ss [] 0 1 [] true default_output_block_suffix =
    ss ++ text.
Proof.
  unfold DeclareVertexEntryPoint.
  destruct (m_glsl this), (m_use_glsl_binding_layout this),
    (m_use_glsl_interface_blocks this), (IsVulkan this);
    cbn [fold_left fst]; rewrite ?for_u32_0, ?for_u32_1;
    rewrite !app_assoc; eexists; reflexivity.
Qed.

(** C8.  The full-screen-quad vertex shader for desktop GL contains the
    Y-flip block under a conditional that names [API_OPENGL], a macro the
    same shader defines as 1; the one for Vulkan defines [v_id] from
    [gl_VertexIndex] and does not mention [gl_VertexID]. *)
Theorem C8_screen_quad_vertex_shader gl gl' dsb g lg :
  new_ShaderGen gl OpenGL dsb = Returned (g, lg) ->
  contains y_flip_block (GenerateScreenQuadVertexShader gl' g) = true /\
  prefix "  #if API_OPENGL" y_flip_block = true /\
  contains ("#define API_OPENGL 1" ++ nl)
    (GenerateScreenQuadVertexShader gl' g) = true /\
  exists gv,
    new_ShaderGen gl Vulkan dsb = Returned (gv, []) /\
    contains ("#define v_id uint(gl_VertexIndex)" ++ nl)
      (GenerateScreenQuadVertexShader gl' gv) = true /\
    contains "gl_VertexID" (GenerateScreenQuadVertexShader gl' gv) = false.
Proof.
  intros H; split; [|split; [reflexivity | split]].
  - unfold GenerateScreenQuadVertexShader.
    set (entry := DeclareVertexEntryPoint _ _ _ _ _ _ _ _); clearbody entry.
    rewrite !app_assoc.
    match goal with
    | |- contains _ (entry ++ ?rest) = true =>
        change rest with
          ((nl ++ "{" ++ nl ++
            "  v_tex0 = float2(float((v_id << 1) & 2u), float(v_id & 2u));" ++ nl ++
            "  v_pos = float4(v_tex0 * float2(2.0f, -2.0f) + float2(-1.0f, 1.0f), 0.0f, 1.0f);" ++ nl) ++
           y_flip_block ++ ("}" ++ nl))
    end.
    rewrite <- app_assoc; apply contains_mid.
  - destruct (new_ShaderGen_GL gl OpenGL dsb g lg (or_introl eq_refl) H)
      as (M & m & ->).
    destruct (version_directive_shape (RenderAPI_eqb OpenGL OpenGLES) M m)
      as (tail & -> & _).
    unfold GenerateScreenQuadVertexShader.
    match goal with
    | |- context [DeclareVertexEntryPoint ?this ?header _ _ _ _ _ _] =>
        destruct (screen_quad_entry_appends this header) as (text & ->);
        remember header as written eqn:Hwritten
    end.
    repeat apply contains_app_r.
    subst written; apply desktop_header_defines_API_OPENGL.
  - exists (generator Vulkan dsb true true ""); split; [reflexivity|].
    split; vm_compute; reflexivity.
Qed.

Lemma C8_screen_quad_vertex_shader_witness :
  contains y_flip_block
    (GenerateScreenQuadVertexShader (context OpenGL 4 6 "4.60")
       (generator OpenGL false true true "#version 430")) = true.
Proof.
  apply (C8_screen_quad_vertex_shader
           (context OpenGL 4 6 "4.60") (context OpenGL 4 6 "4.60") false
           (generator OpenGL false true true "#version 430") [] eq_refl).
Defined.

(** C9.  The solid-fill fragment shader for D3D11 has an output parameter
    annotated [SV_Depth] and a [cbuffer] block bound to [register(b0)]; the
    one for Vulkan has a [layout(push_constant)] uniform block and no
    descriptor-set binding. *)
Theorem C9_fill_fragment_shader gl gl' dsb :
  (exists g text,
     new_ShaderGen gl D3D11 dsb = Returned (g, []) /\
     GenerateFillFragmentShader gl' g = Returned text /\
     contains ("  out float o_depth : SV_Depth," ++ nl) text = true /\
     contains ("cbuffer UBOBlock : register(b0)" ++ nl ++ "{" ++ nl) text = true /\
     contains "push_constant" text = false) /\
  (exists g text,
     new_ShaderGen gl Vulkan dsb = Returned (g, []) /\
     GenerateFillFragmentShader gl' g = Returned text /\
     contains ("layout(push_constant) uniform PushConstants" ++ nl ++ "{" ++ nl)
       text = true /\
     contains "set = " text = false /\
     contains "binding = " text = false /\
     contains "cbuffer" text = false).
Proof.
  split.
  - exists (generator D3D11 dsb false (unassigned_binding_layout gl) "").
    eexists; split; [reflexivity|].
    split; [vm_compute; reflexivity|].
    repeat split; vm_compute; reflexivity.
  - exists (generator Vulkan dsb true true "").
    destruct dsb; eexists; (split; [reflexivity|]);
      (split; [vm_compute; reflexivity|]);
      repeat split; vm_compute; reflexivity.
Qed.

(** * Part III: further properties *)

(** ** Loops that only append *)

Lemma join_app (a b : list string) : join (a ++ b) = join a ++ join b.
Proof.
  induction a as [|x a IH]; simpl; [reflexivity|].
  now rewrite IH, app_assoc.
Qed.

(** A loop over a list whose body only appends writes the pieces in order. *)
Lemma fold_left_appends {A : Type} (body : string -> A -> string)
    (piece : A -> string) (l : list A) (ss : string) :
  (forall s x, body s x = s ++ piece x) ->
  fold_left body l ss = ss ++ join (map piece l).
Proof.
  intro Hbody; revert ss; induction l as [|x l IH]; intro ss; simpl.
  - now rewrite app_nil_r.
  - now rewrite IH, Hbody, app_assoc.
Qed.

Lemma for_u32_appends (n : Z) (body : Z -> string -> string)
    (piece : Z -> string) (ss : string) :
  (forall i s, body i s = s ++ piece i) ->
  for_u32 n body ss = ss ++ join (map piece (u32_range n)).
Proof.
  intro Hbody; unfold for_u32, u32_range.
  rewrite map_map.
  apply (fold_left_appends (fun s i => body (Z.of_nat i) s)
           (fun i => piece (Z.of_nat i))).
  intros s i; apply Hbody.
Qed.

Lemma fold_left_counter_appends {A : Type}
    (body : string * Z -> A -> string * Z) (piece : Z -> A -> string)
    (l : list A) (ss : string) (counter : Z) :
  (forall s c x, body (s, c) x = (s ++ piece c x, (c + 1) mod UINT32_MOD)) ->
  fst (fold_left body l (ss, counter)) =
  ss ++ join (map (fun '(c, x) => piece c x) (numbered counter l)).
Proof.
  intro Hbody; revert ss counter; induction l as [|x l IH];
    intros ss counter; simpl.
  - now rewrite app_nil_r.
  - now rewrite Hbody, IH, app_assoc.
Qed.

(** Without wrap-around the counter values are consecutive. *)
Lemma numbered_consecutive {A : Type} (l : list A) (counter : Z) :
  0 <= counter ->
  counter + Z.of_nat (List.length l) <= UINT32_MOD ->
  numbered counter l =
  combine (map (fun i => counter + Z.of_nat i) (seq 0 (List.length l))) l.
Proof.
  revert counter; induction l as [|x l IH]; intros counter H0 Hn;
    [reflexivity|].
  cbn [List.length] in Hn.
  cbn [numbered List.length map seq combine].
  f_equal; [f_equal; lia|].
  destruct l as [|y l]; [reflexivity|].
  cbn [List.length] in Hn, IH.
  rewrite Z.mod_small by lia.
  rewrite IH by lia.
  rewrite <- seq_shift, map_map.
  f_equal; apply map_ext; intro i; lia.
Qed.

(** A run of writes to the stream, as the list of what was written. *)
Lemma chain_join (l : list string) (base : string) :
  fold_left String.append l base = base ++ join l.
Proof.
  revert base; induction l as [|x l IH]; intro base; simpl.
  - now rewrite app_nil_r.
  - now rewrite IH, app_assoc.
Qed.

(** The base and the written pieces of a run [base << a1 << ... << an]. *)
Ltac chain_of t acc :=
  lazymatch t with
  | String.append ?p ?a => chain_of p (@cons string a acc)
  | _ => constr:((t, acc))
  end.

(** Turns the run [t] of the goal into [base ++ join [a1; ...; an]]. *)
Ltac join_chain t :=
  let r := chain_of t (@nil string) in
  lazymatch r with
  | (?base, ?l) =>
      change t with (fold_left String.append l base);
      rewrite (chain_join l base)
  end.

Ltac split_conditions :=
  repeat match goal with
         | |- context [if ?c then _ else _] => destruct c
         end.

Lemma combine_map_l {A B C : Type} (f : A -> B) (l1 : list A) (l2 : list C) :
  combine (map f l1) l2 = map (fun '(i, a) => (f i, a)) (combine l1 l2).
Proof.
  revert l2; induction l1 as [|i l1 IH]; intros [|a l2]; cbn [map combine];
    try reflexivity.
  now rewrite IH.
Qed.

Lemma map_combine_seq {A B : Type} (f : A -> B) (l : list A) (start : nat) :
  map (fun '(i, a) => f a) (combine (seq start (List.length l)) l) = map f l.
Proof.
  revert start; induction l as [|a l IH]; intro start;
    cbn [List.length seq map combine]; [reflexivity | now rewrite IH].
Qed.

(** ** More about the constructor *)

(** The constructor keeps the backend and the dual-source flag it was
    given, picks GLSL for every backend but D3D11, and on a GLSL backend
    resolves binding layout to true exactly for Vulkan, GLES 3.1, GL 4.2,
    or the three ARB extensions together.  On D3D11 it calls nothing: no
    interface blocks, no version directive. *)
Theorem capabilities_resolved gl api dsb g lg :
  new_ShaderGen gl api dsb = Returned (g, lg) ->
  m_render_api g = api /\
  (m_glsl g = true <-> api <> D3D11) /\
  m_supports_dual_source_blend g = dsb /\
  (api <> D3D11 ->
   (m_use_glsl_binding_layout g = true <->
    api = Vulkan \/
    GLAD_GL_ES_VERSION_3_1 gl = true \/
    GLAD_GL_VERSION_4_2 gl = true \/
    (GLAD_GL_ARB_explicit_attrib_location gl = true /\
     GLAD_GL_ARB_explicit_uniform_location gl = true /\
     GLAD_GL_ARB_shading_language_420pack gl = true))) /\
  (api = D3D11 ->
   m_use_glsl_interface_blocks g = false /\ m_glsl_version_string g = "").
Proof.
  intro H.
  assert (Hbl : UseGLSLBindingLayout gl = true <->
            GLAD_GL_ES_VERSION_3_1 gl = true \/
            GLAD_GL_VERSION_4_2 gl = true \/
            (GLAD_GL_ARB_explicit_attrib_location gl = true /\
             GLAD_GL_ARB_explicit_uniform_location gl = true /\
             GLAD_GL_ARB_shading_language_420pack gl = true)).
  { unfold UseGLSLBindingLayout.
    rewrite !orb_true_iff, !andb_true_iff; tauto. }
  destruct api.
  - rewrite new_ShaderGen_D3D11 in H; injection H as <- _.
    repeat split; try discriminate; try congruence.
  - rewrite new_ShaderGen_Vulkan in H; injection H as <- _.
    repeat split; try discriminate; auto.
  - destruct (new_ShaderGen_GL gl OpenGL dsb g lg (or_introl eq_refl) H)
      as (M & m & ->).
    cbn [generator m_render_api m_glsl m_supports_dual_source_blend
         m_use_glsl_binding_layout RenderAPI_eqb negb].
    repeat split; try discriminate; try tauto.
    intros [F | F]; [discriminate F | tauto].
  - destruct (new_ShaderGen_GL gl OpenGLES dsb g lg (or_intror eq_refl) H)
      as (M & m & ->).
    cbn [generator m_render_api m_glsl m_supports_dual_source_blend
         m_use_glsl_binding_layout RenderAPI_eqb negb].
    repeat split; try discriminate; try tauto.
    intros [F | F]; [discriminate F | tauto].
Qed.

Lemma capabilities_resolved_witness :
  m_use_glsl_binding_layout (generator OpenGL true true true "#version 420") = true.
Proof.
  apply (capabilities_resolved (context OpenGL 4 2 "4.20") OpenGL true
           (generator OpenGL true true true "#version 420") [] eq_refl).
  - discriminate.
  - right; right; left; reflexivity.
Defined.

(** [sscanf] has no assertion of its own. *)
Lemma sscanf_never_asserts s major minor :
  sscanf_d_dot_d s major minor <> AssertFailed.
Proof.
  unfold sscanf_d_dot_d.
  destruct (scan_d s) as [w rest| | |]; try discriminate.
  destruct rest as [|c rest]; [discriminate|].
  destruct (Ascii.eqb c "."); [|discriminate].
  destruct (scan_d rest); discriminate.
Qed.

(** When [sscanf] converts a number that does not fit an [int], the
    construction is undefined. *)
Lemma new_ShaderGen_overflow gl api dsb v :
  is_GL api ->
  glGetString_SHADING_LANGUAGE_VERSION gl = Some v ->
  sscanf_d_dot_d (skip_to_digit v) 0 0 = Undefined ->
  new_ShaderGen gl api dsb = Undefined.
Proof.
  intros Hgl Hv Hs.
  destruct Hgl; subst api; unfold new_ShaderGen, SetGLSLVersionString;
    cbn [m_glsl m_render_api RenderAPI_eqb negb orb];
    rewrite Hv, Hs; reflexivity.
Qed.

(** *** Numbers that fit an [int] *)

Lemma digit_run_from_mono s run run' :
  (run <= run')%nat -> (digit_run_from run s <= digit_run_from run' s)%nat.
Proof.
  revert run run'; induction s as [|c s IH]; intros run run' H;
    cbn [digit_run_from]; [exact H|].
  destruct (isdigit c); [apply IH; lia | lia].
Qed.

(** Dropping the first character does not make the longest run longer. *)
Lemma digit_run_tail c s run :
  (longest_digit_run s <= digit_run_from run (String c s))%nat.
Proof.
  unfold longest_digit_run; cbn [digit_run_from]; destruct (isdigit c).
  - apply digit_run_from_mono; lia.
  - lia.
Qed.

Lemma digit_run_skip_to_digit v :
  (longest_digit_run (skip_to_digit v) <= longest_digit_run v)%nat.
Proof.
  induction v as [|c v IH]; [reflexivity|].
  cbn [skip_to_digit]; destruct (isdigit c); [reflexivity|].
  pose proof (digit_run_tail c v 0); unfold longest_digit_run in *; lia.
Qed.

Lemma digit_run_skip_space s :
  (longest_digit_run (skip_space s) <= longest_digit_run s)%nat.
Proof.
  induction s as [|c s IH]; [reflexivity|].
  cbn [skip_space]; destruct (isspace c); [|reflexivity].
  pose proof (digit_run_tail c s 0); unfold longest_digit_run in *; lia.
Qed.

(** A run of [k] digits denotes a number below [10 ^ k]. *)
Lemma scan_digits_bound s acc k :
  0 <= acc < 10 ^ Z.of_nat k ->
  0 <= fst (scan_digits s acc) < 10 ^ Z.of_nat (digit_run_from k s) /\
  (longest_digit_run (snd (scan_digits s acc)) <= digit_run_from k s)%nat.
Proof.
  revert acc k; induction s as [|c s IH]; intros acc k H.
  - cbn [scan_digits digit_run_from fst snd]; split; [exact H|].
    unfold longest_digit_run; cbn [digit_run_from]; lia.
  - cbn [scan_digits digit_run_from]; destruct (isdigit c) eqn:E.
    + apply IH.
      pose proof (isdigit_value c E).
      rewrite Nat2Z.inj_succ, Z.pow_succ_r by lia; lia.
    + cbn [fst snd]; split.
      * split; [lia|].
        apply Z.lt_le_trans with (10 ^ Z.of_nat k); [lia|].
        apply Z.pow_le_mono_r; lia.
      * unfold longest_digit_run; cbn [digit_run_from]; rewrite E; lia.
Qed.

(** In a text without a run of more than nine digits, [%d] never meets a
    number that does not fit an [int], and neither does a later [%d]. *)
Lemma scan_d_fits s :
  (longest_digit_run s <= 9)%nat ->
  scan_d s <> ConvOverflow /\
  (forall v rest, scan_d s = ConvInt v rest ->
                  (longest_digit_run rest <= 9)%nat).
Proof.
  intro H; pose proof (digit_run_skip_space s) as Hs.
  unfold scan_d; destruct (skip_space s) as [|c s']; [split; discriminate|].
  assert (Hbody : forall body,
            body = s' \/ body = String c s' ->
            (longest_digit_run body <= 9)%nat).
  { intros body [-> | ->]; [|lia].
    pose proof (digit_run_tail c s' 0); unfold longest_digit_run in *; lia. }
  assert (Hfit : forall body,
            (longest_digit_run body <= 9)%nat ->
            in_int (fst (scan_digits body 0)) = true /\
            in_int (- fst (scan_digits body 0)) = true /\
            (longest_digit_run (snd (scan_digits body 0)) <= 9)%nat).
  { intros body Hb.
    destruct (scan_digits_bound body 0 0) as [Hv Hr]; [cbn; lia|].
    fold (longest_digit_run body) in Hv, Hr.
    assert (Hp : 10 ^ Z.of_nat (longest_digit_run body) <= 10 ^ 9)
      by (apply Z.pow_le_mono_r; lia).
    unfold in_int, INT_MIN, INT_MAX; rewrite !andb_true_iff, !Z.leb_le.
    repeat split; lia. }
  destruct (Ascii.eqb c "-"); [|destruct (Ascii.eqb c "+")].
  all: match goal with
       | |- context [first_is_digit ?b] =>
           destruct (first_is_digit b); [|split; discriminate];
           destruct (Hfit b) as (Hpos & Hneg & Hrest);
             [apply Hbody; auto|];
           destruct (scan_digits b 0) as [w r]; cbn [fst snd] in *
       end.
  all: try rewrite Hpos; try rewrite Hneg.
  all: split; [discriminate|].
  all: intros v rest E; injection E as _ <-; exact Hrest.
Qed.

Lemma sscanf_defined s major minor :
  (longest_digit_run s <= 9)%nat ->
  sscanf_d_dot_d s major minor <> Undefined.
Proof.
  intro H; destruct (scan_d_fits s H) as [Hno Hrest].
  unfold sscanf_d_dot_d.
  destruct (scan_d s) as [w rest| | |]; try discriminate; [|congruence].
  specialize (Hrest w rest eq_refl).
  destruct rest as [|c rest]; [discriminate|].
  destruct (Ascii.eqb c "."); [|discriminate].
  assert (Hr : (longest_digit_run rest <= 9)%nat).
  { pose proof (digit_run_tail c rest 0); unfold longest_digit_run in *; lia. }
  destruct (scan_d_fits rest Hr) as [Hno' _].
  destruct (scan_d rest); try discriminate; congruence.
Qed.

(** The constructor stops at its assertion exactly when the backend is a
    GL one and the driver has no version string.  Vulkan and D3D11 never
    ask the driver: the constructor returns, with nothing logged.  On a GL
    backend it returns for every version string without a run of more than
    nine digits, so that every number [sscanf] converts fits an [int]. *)
Theorem constructor_outcome gl api dsb :
  (new_ShaderGen gl api dsb = AssertFailed <->
   is_GL api /\ glGetString_SHADING_LANGUAGE_VERSION gl = None) /\
  (~ is_GL api -> exists g, new_ShaderGen gl api dsb = Returned (g, [])) /\
  (forall v,
     is_GL api ->
     glGetString_SHADING_LANGUAGE_VERSION gl = Some v ->
     (longest_digit_run v <= 9)%nat ->
     exists g lg, new_ShaderGen gl api dsb = Returned (g, lg)).
Proof.
  assert (Hnot : ~ is_GL api ->
            exists g, new_ShaderGen gl api dsb = Returned (g, [])).
  { destruct api; intro Hn.
    - eexists; apply new_ShaderGen_D3D11.
    - eexists; apply new_ShaderGen_Vulkan.
    - exfalso; apply Hn; now left.
    - exfalso; apply Hn; now right. }
  assert (Hdec : is_GL api \/ ~ is_GL api).
  { unfold is_GL; destruct api; auto; right; intros [F|F]; discriminate F. }
  split; [|split; [exact Hnot|]].
  - destruct Hdec as [Hgl | Hn].
    2: { destruct (Hnot Hn) as (g & ->).
         split; [discriminate | intros [F _]; contradiction]. }
    destruct (glGetString_SHADING_LANGUAGE_VERSION gl) as [v|] eqn:Hv.
    + split; [|intros [_ F]; discriminate F].
      intro H; exfalso.
      destruct (sscanf_d_dot_d (skip_to_digit v) 0 0) as [r| |] eqn:Hs.
      * assert (Hret : exists g lg, new_ShaderGen gl api dsb = Returned (g, lg)).
        { apply new_ShaderGen_returns; intros _; exists v; split;
            [exact Hv | rewrite Hs; discriminate]. }
        destruct Hret as (g & lg & E); rewrite E in H; discriminate H.
      * exact (sscanf_never_asserts _ _ _ Hs).
      * rewrite (new_ShaderGen_overflow gl api dsb v Hgl Hv Hs) in H.
        discriminate H.
    + rewrite (new_ShaderGen_missing_version gl api dsb Hgl Hv).
      split; [intros _; split; [exact Hgl | reflexivity] | reflexivity].
  - intros v Hgl Hv Hrun.
    apply new_ShaderGen_returns; intros _; exists v; split; [exact Hv|].
    apply sscanf_defined.
    pose proof (digit_run_skip_to_digit v); lia.
Qed.

Lemma constructor_outcome_witness :
  new_ShaderGen (driver_reporting None) OpenGL false = AssertFailed /\
  exists g lg,
    new_ShaderGen (driver_reporting (Some "4.60 NVIDIA 535.54")) OpenGL false =
    Returned (g, lg).
Proof.
  split.
  - apply (constructor_outcome (driver_reporting None) OpenGL false).
    split; [left; reflexivity | reflexivity].
  - destruct (constructor_outcome
                (driver_reporting (Some "4.60 NVIDIA 535.54")) OpenGL false)
      as (_ & _ & Hreturns).
    apply (Hreturns "4.60 NVIDIA 535.54").
    + left; reflexivity.
    + reflexivity.
    + vm_compute; lia.
Defined.

(** Construction logs nothing on Vulkan and D3D11.  On a GL backend it
    logs nothing when [sscanf] reads both numbers, and otherwise exactly one
    error, which quotes the driver's string and the part after the skipped
    prefix. *)
Theorem error_logged_iff_unparsed gl api dsb g lg :
  new_ShaderGen gl api dsb = Returned (g, lg) ->
  (~ is_GL api -> lg = []) /\
  (is_GL api ->
   exists v assigned major minor,
     glGetString_SHADING_LANGUAGE_VERSION gl = Some v /\
     sscanf_d_dot_d (skip_to_digit v) 0 0 = Returned (assigned, major, minor) /\
     (assigned = 2 -> lg = []) /\
     (assigned <> 2 ->
      lg = ["Invalid GLSL version string: '" ++ v ++ "' ('" ++
            skip_to_digit v ++ "')"])).
Proof.
  intro H; split.
  - intro Hn; destruct api.
    + rewrite new_ShaderGen_D3D11 in H; now injection H as _ <-.
    + rewrite new_ShaderGen_Vulkan in H; now injection H as _ <-.
    + exfalso; apply Hn; now left.
    + exfalso; apply Hn; now right.
  - intro Hgl.
    destruct (glGetString_SHADING_LANGUAGE_VERSION gl) as [v|] eqn:Hv.
    2: { rewrite (new_ShaderGen_missing_version gl api dsb Hgl Hv) in H;
         discriminate H. }
    destruct (sscanf_d_dot_d (skip_to_digit v) 0 0) as [[[n M] m]| |] eqn:Hs.
    + exists v, n, M, m; split; [reflexivity | split; [exact Hs|]].
      assert (Hlog : lg = if n =? 2 then []
                else ["Invalid GLSL version string: '" ++ v ++ "' ('" ++
                      skip_to_digit v ++ "')"]).
      { destruct Hgl; subst api; unfold new_ShaderGen, SetGLSLVersionString in H;
          cbn [m_glsl m_render_api RenderAPI_eqb negb orb] in H;
          rewrite Hv, Hs in H; cbn [bind] in H;
          destruct (n =? 2);
          try destruct (cap_version _ M m);
          cbn [bind] in H; injection H as _ <-; reflexivity. }
      split; intro Hn.
      * subst n; exact Hlog.
      * apply Z.eqb_neq in Hn; rewrite Hn in Hlog; exact Hlog.
    + exfalso; exact (sscanf_never_asserts _ _ _ Hs).
    + rewrite (new_ShaderGen_overflow gl api dsb v Hgl Hv Hs) in H.
      discriminate H.
Qed.

Lemma error_logged_iff_unparsed_witness :
  exists v assigned major minor,
    glGetString_SHADING_LANGUAGE_VERSION (driver_reporting (Some "4")) = Some v /\
    sscanf_d_dot_d (skip_to_digit v) 0 0 = Returned (assigned, major, minor) /\
    (assigned = 2 -> ["Invalid GLSL version string: '4' ('4')"] = []) /\
    (assigned <> 2 ->
     ["Invalid GLSL version string: '4' ('4')"] =
     ["Invalid GLSL version string: '" ++ v ++ "' ('" ++ skip_to_digit v ++ "')"]).
Proof.
  apply (error_logged_iff_unparsed (driver_reporting (Some "4")) OpenGL false
           (generator OpenGL false false false "#version 400")
           ["Invalid GLSL version string: '4' ('4')"] eq_refl).
  left; reflexivity.
Defined.

(** ** Reading the version back *)

(** The skipping loop removes the longest prefix without a digit: what is
    left is empty or starts with a digit. *)
Theorem skip_to_digit_spec (v : string) :
  exists skipped,
    v = skipped ++ skip_to_digit v /\
    all_chars not_digit skipped = true /\
    (skip_to_digit v = "" \/ first_is_digit (skip_to_digit v) = true).
Proof.
  induction v as [|c v (skipped & Hv & Hs & Hd)].
  - exists ""; repeat split; now left.
  - cbn [skip_to_digit]; destruct (isdigit c) eqn:E.
    + exists ""; repeat split; right; exact E.
    + exists (String c skipped); cbn [append all_chars]; repeat split.
      * now rewrite <- Hv.
      * unfold not_digit at 1; now rewrite E, Hs.
      * exact Hd.
Qed.

(** A prefix without digits in front of a digit is skipped whole. *)
Lemma skip_to_digit_app (skipped s : string) :
  all_chars not_digit skipped = true ->
  first_is_digit s = true ->
  skip_to_digit (skipped ++ s) = s.
Proof.
  intros Hs Hd; induction skipped as [|c skipped IH]; cbn [append].
  - destruct s as [|c s]; [reflexivity|].
    cbn [skip_to_digit]; cbn [first_is_digit] in Hd; now rewrite Hd.
  - cbn [all_chars] in Hs; apply andb_true_iff in Hs; destruct Hs as [Hc Hs].
    unfold not_digit in Hc; apply negb_true_iff in Hc.
    cbn [skip_to_digit]; rewrite Hc; auto.
Qed.

(** A driver string that holds, after any text without digits, a major
    number, a dot and a minor number of two digits or more, is read back in
    full: for a version not above the ceiling the directive carries the same
    digits, and no error is logged. *)
Theorem reported_version_round_trip gl this skipped major minor rest :
  all_chars not_digit skipped = true ->
  0 <= major <= INT_MAX ->
  0 <= minor <= INT_MAX ->
  first_is_digit rest = false ->
  glGetString_SHADING_LANGUAGE_VERSION gl =
    Some (skipped ++ fmt_u major ++ "." ++ fmt_02d minor ++ rest) ->
  let es := RenderAPI_eqb (m_render_api this) OpenGLES in
  ~ newer_than major minor (ceiling es) ->
  SetGLSLVersionString gl this =
  Returned
    (set_version_string
       ("#version " ++ fmt_u major ++ fmt_02d minor ++
        (if es && (major >=? 3) then " es" else "")) this, []).
Proof.
  intros Hskipped HM Hm Hrest Hv es Hceil.
  rewrite (SetGLSLVersionString_parsed gl this _ major minor Hv).
  - destruct (cap_version_spec es major minor) as [_ Hkeep].
    fold es; rewrite (Hkeep Hceil); cbn [fst snd].
    unfold directive_text; now rewrite fmt_d_nonneg by lia.
  - rewrite skip_to_digit_app.
    + now apply sscanf_reads_version.
    + exact Hskipped.
    + apply first_is_digit_app, first_is_digit_utoa.
Qed.

Lemma reported_version_round_trip_witness :
  SetGLSLVersionString (driver_reporting (Some "OpenGL ES GLSL ES 3.10 build"))
    (generator OpenGLES false false false "") =
  Returned (generator OpenGLES false false false "#version 310 es", []).
Proof.
  apply (reported_version_round_trip
           (driver_reporting (Some "OpenGL ES GLSL ES 3.10 build"))
           (generator OpenGLES false false false "")
           "OpenGL ES GLSL ES " 3 10 " build").
  - reflexivity.
  - unfold INT_MAX; lia.
  - unfold INT_MAX; lia.
  - reflexivity.
  - reflexivity.
  - unfold newer_than; cbn; lia.
Defined.

(** ** More about the header *)

(** The header is appended to whatever the stream holds, and its text does
    not depend on that. *)
Theorem header_appends gl this ss :
  WriteHeader gl this ss = ss ++ WriteHeader gl this "".
Proof.
  unfold WriteHeader, DefineMacro.
  destruct (m_render_api this); cbn [RenderAPI_eqb orb BoolToUInt32];
    destruct (m_glsl this); split_conditions;
    lazymatch goal with
    | |- ?L = _ ++ ?R => join_chain L; join_chain R; reflexivity
    end.
Qed.

(** On a GL backend the header is the directive followed by a text that
    does not depend on it. *)
Lemma header_directive_first gl api dsb ib bl version :
  is_GL api ->
  WriteHeader gl (generator api dsb ib bl version) "" =
  version ++ WriteHeader gl (generator api dsb ib bl "") "".
Proof.
  intros [-> | ->]; unfold_header; split_conditions;
    lazymatch goal with
    | |- ?L = _ ++ ?R => join_chain L; join_chain R; reflexivity
    end.
Qed.

(** With an empty directive the header starts with two line feeds. *)
Lemma header_after_directive gl api dsb ib bl :
  is_GL api ->
  exists rest,
    WriteHeader gl (generator api dsb ib bl "") "" = String LF (String LF rest).
Proof.
  intros [-> | ->]; unfold_header; split_conditions;
    eexists; vm_compute; reflexivity.
Qed.

(** The lines of the header of a GL backend: the directive, then the lines
    of the header as it is with an empty directive, without the first. *)
Lemma header_lines_GL gl api dsb ib bl version :
  is_GL api ->
  all_chars not_LF version = true ->
  lines (WriteHeader gl (generator api dsb ib bl version) "") =
  version :: tl (lines (WriteHeader gl (generator api dsb ib bl "") "")).
Proof.
  intros Hapi Hv.
  rewrite (header_directive_first gl api dsb ib bl version Hapi).
  destruct (header_after_directive gl api dsb ib bl Hapi) as (rest & ->).
  rewrite lines_app by exact Hv.
  change (String LF (String LF rest)) with ("" ++ String LF (String LF rest)).
  rewrite (lines_app "") by reflexivity.
  reflexivity.
Qed.

(** A directive with a one-line tail is one line. *)
Lemma directive_one_line tail :
  all_chars not_LF tail = true ->
  all_chars not_LF ("#version " ++ tail) = true.
Proof. intro H; rewrite all_chars_app, H; reflexivity. Qed.

(** Reduces a statement about the header of a constructed generator to the
    closed headers of the four backends. *)
Ltac constructed_header H :=
  lazymatch type of H with
  | new_ShaderGen ?gl ?api ?dsb = Returned (?g, ?lg) =>
      destruct api;
      [ rewrite new_ShaderGen_D3D11 in H; injection H as <- _
      | rewrite new_ShaderGen_Vulkan in H; injection H as <- _
      | let M := fresh "M" in
        let m := fresh "m" in
        let tail := fresh "tail" in
        let Htail := fresh "Htail" in
        destruct (new_ShaderGen_GL gl OpenGL dsb g lg (or_introl eq_refl) H)
          as (M & m & ->);
        destruct (version_directive_shape (RenderAPI_eqb OpenGL OpenGLES) M m)
          as (tail & -> & Htail);
        rewrite header_lines_GL
          by (try (left; reflexivity); apply directive_one_line, Htail)
      | let M := fresh "M" in
        let m := fresh "m" in
        let tail := fresh "tail" in
        let Htail := fresh "Htail" in
        destruct (new_ShaderGen_GL gl OpenGLES dsb g lg (or_intror eq_refl) H)
          as (M & m & ->);
        destruct (version_directive_shape (RenderAPI_eqb OpenGLES OpenGLES) M m)
          as (tail & -> & Htail);
        rewrite header_lines_GL
          by (try (right; reflexivity); apply directive_one_line, Htail) ]
  end.

(** Decides a statement about a closed header. *)
Ltac compute_header :=
  unfold_header; split_conditions; vm_compute; reflexivity.

(** On every GLSL backend the first line of the header is its only
    [#version] line (the driver's directive on GL, [#version 450 core] on
    Vulkan) and the second line is empty; the D3D11 header has no
    [#version] line. *)
Theorem header_version_line gl api dsb g lg gl' :
  new_ShaderGen gl api dsb = Returned (g, lg) ->
  let header := WriteHeader gl' g "" in
  let directive :=
    match api with
    | Vulkan => "#version 450 core"
    | _ => m_glsl_version_string g
    end in
  (api = D3D11 -> filter is_version_line (lines header) = []) /\
  (api <> D3D11 ->
   filter is_version_line (lines header) = [directive] /\
   hd "-" (lines header) = directive /\
   nth 1 (lines header) "-" = "").
Proof.
  intros H header directive; subst header directive.
  split; [intro Hapi | intro Hapi; split; [|split]];
    constructed_header H;
    try discriminate Hapi; try (exfalso; apply Hapi; reflexivity);
    compute_header.
Qed.

Lemma header_version_line_witness :
  hd "-" (lines (WriteHeader (context OpenGLES 3 0 "3.00")
                   (generator OpenGLES false false false "#version 300 es") "")) =
  "#version 300 es".
Proof.
  apply (header_version_line (context OpenGLES 3 0 "3.00") OpenGLES false
           (generator OpenGLES false false false "#version 300 es") []
           (context OpenGLES 3 0 "3.00") eq_refl).
  discriminate.
Defined.

(** The [#extension] lines of the header are exactly those the feature
    flags call for, in a fixed order; Vulkan and D3D11 have none, and
    embedded GL at most the one for dual-source blend. *)
Theorem header_extension_lines gl api dsb g lg gl' :
  new_ShaderGen gl api dsb = Returned (g, lg) ->
  filter is_extension_line (lines (WriteHeader gl' g "")) =
  extension_lines api (m_use_glsl_binding_layout g) gl'.
Proof.
  intro H; unfold extension_lines; constructed_header H; compute_header.
Qed.

Lemma header_extension_lines_witness :
  filter is_extension_line
    (lines (WriteHeader (driver_reporting (Some "1.30"))
              (generator OpenGL false false false "#version 130") "")) =
  ["#extension GL_ARB_uniform_buffer_object : require"].
Proof.
  apply (header_extension_lines (driver_reporting (Some "1.30")) OpenGL false
           (generator OpenGL false false false "#version 130") []
           (driver_reporting (Some "1.30")) eq_refl).
Defined.

(** Precision lines are written on embedded GL only: three always, and
    the one for [usamplerBuffer] from GLES 3.2 on. *)
Theorem header_precision_lines gl api dsb g lg gl' :
  new_ShaderGen gl api dsb = Returned (g, lg) ->
  filter is_precision_line (lines (WriteHeader gl' g "")) =
  precision_lines api gl'.
Proof.
  intro H; unfold precision_lines; constructed_header H; compute_header.
Qed.

Lemma header_precision_lines_witness :
  filter is_precision_line
    (lines (WriteHeader (context OpenGLES 3 2 "3.20")
              (generator OpenGLES false true true "#version 320 es") "")) =
  ["precision highp float;"; "precision highp int;";
   "precision highp sampler2D;"; "precision highp usamplerBuffer;"].
Proof.
  apply (header_precision_lines (context OpenGLES 3 2 "3.20") OpenGLES false
           (generator OpenGLES false true true "#version 320 es") []
           (context OpenGLES 3 2 "3.20") eq_refl).
Defined.

(** The header defines exactly one of [GLSL] and [HLSL], as 1: [HLSL] on
    D3D11 and [GLSL] on every other backend. *)
Theorem header_dialect_line gl api dsb g lg gl' :
  new_ShaderGen gl api dsb = Returned (g, lg) ->
  filter is_dialect_line (lines (WriteHeader gl' g "")) =
  [if m_glsl g then "#define GLSL 1" else "#define HLSL 1"] /\
  (m_glsl g = false <-> api = D3D11).
Proof.
  intro H; split.
  - constructed_header H; compute_header.
  - destruct api.
    + rewrite new_ShaderGen_D3D11 in H; injection H as <- _; now split.
    + rewrite new_ShaderGen_Vulkan in H; injection H as <- _;
        split; discriminate.
    + destruct (new_ShaderGen_GL gl OpenGL dsb g lg (or_introl eq_refl) H)
        as (M & m & ->); split; discriminate.
    + destruct (new_ShaderGen_GL gl OpenGLES dsb g lg (or_intror eq_refl) H)
        as (M & m & ->); split; discriminate.
Qed.

Lemma header_dialect_line_witness :
  filter is_dialect_line
    (lines (WriteHeader (driver_reporting None)
              (generator D3D11 false false false "") "")) =
  ["#define HLSL 1"].
Proof.
  apply (header_dialect_line (driver_reporting None) D3D11 false
           (generator D3D11 false false false "") []
           (driver_reporting None) eq_refl).
Defined.

(** ** The text of the entry points *)

(** A counting loop whose body only appends writes its pieces in order. *)
Lemma for_u32_pieces (n : Z) (body : Z -> string -> string)
    (piece : Z -> string) (ss : string) :
  (forall i s, body i s = s ++ piece i) ->
  for_u32 n body ss = ss ++ join (map piece (u32_range n)).
Proof. apply for_u32_appends. Qed.

(** Proves that a body written with [<<] only appends. *)
Ltac by_assoc := intros; rewrite !app_assoc; reflexivity.

(** The vertex entry point appends [vertex_entry_text]. *)
Lemma vertex_entry_point_text this ss attributes nc nt additional vid suffix :
  DeclareVertexEntryPoint this ss attributes nc nt additional vid suffix =
  ss ++ vertex_entry_text this attributes nc nt additional vid suffix.
Proof.
  unfold DeclareVertexEntryPoint, vertex_entry_text, glsl_attributes,
    glsl_varyings, hlsl_attributes, hlsl_varyings, block_members,
    loose_varyings.
  destruct (m_glsl this).
  - destruct (m_use_glsl_binding_layout this),
      (m_use_glsl_interface_blocks this), (IsVulkan this), vid.
    all: cbv zeta.
    all: try rewrite (fold_left_counter_appends _
           (fun c a => "layout(location = " ++ fmt_u c ++ ") in " ++ a ++ ";" ++ nl))
           by by_assoc.
    all: try rewrite (fold_left_appends _ (fun a => "in " ++ a ++ ";" ++ nl))
           by by_assoc.
    all: try rewrite (fold_left_appends _
           (fun '(q, n) => "  " ++ q ++ " " ++ n ++ ";" ++ nl))
           by (intros s [q n]; rewrite !app_assoc; reflexivity).
    all: try rewrite (fold_left_appends _
           (fun '(q, n) => q ++ " " ++ "out" ++ " " ++ n ++ ";" ++ nl))
           by (intros s [q n]; rewrite !app_assoc; reflexivity).
    all: try rewrite (for_u32_appends nt _
           (fun i => "  float2 v_tex" ++ fmt_u i ++ ";" ++ nl)) by by_assoc.
    all: try rewrite (for_u32_appends nc _
           (fun i => "  float4 v_col" ++ fmt_u i ++ ";" ++ nl)) by by_assoc.
    all: try rewrite (for_u32_appends nt _
           (fun i => "out" ++ " float2 v_tex" ++ fmt_u i ++ ";" ++ nl)) by by_assoc.
    all: try rewrite (for_u32_appends nc _
           (fun i => "out" ++ " float4 v_col" ++ fmt_u i ++ ";" ++ nl)) by by_assoc.
    all: rewrite !app_assoc; reflexivity.
  - destruct vid; cbv zeta.
    all: rewrite (fold_left_counter_appends _
           (fun c '(q, n) => "  " ++ q ++ " " ++ "out" ++ " " ++ n ++
                             " : TEXCOORD" ++ fmt_u c ++ "," ++ nl))
           by (intros s c [q n]; rewrite !app_assoc; reflexivity).
    all: rewrite (for_u32_appends nt _
           (fun i => "  " ++ "out" ++ " float2 v_tex" ++ fmt_u i ++
                     " : TEXCOORD" ++ fmt_u i ++ "," ++ nl)) by by_assoc.
    all: rewrite (for_u32_appends nc _
           (fun i => "  " ++ "out" ++ " float4 v_col" ++ fmt_u i ++
                     " : COLOR" ++ fmt_u i ++ "," ++ nl)) by by_assoc.
    all: rewrite (fold_left_counter_appends _
           (fun c a => "  in " ++ a ++ " : ATTR" ++ fmt_u c ++ "," ++ nl))
           by by_assoc.
    all: rewrite !app_assoc; reflexivity.
Qed.

(** The fragment entry point stops at its assertion or appends
    [fragment_entry_text]. *)
Lemma fragment_entry_point_text this ss nc nt additional fc n depth :
  DeclareFragmentEntryPoint this ss nc nt additional fc n depth =
  if fragment_assertion_fails this n then AssertFailed
  else Returned (ss ++ fragment_entry_text this nc nt additional fc n depth).
Proof.
  unfold DeclareFragmentEntryPoint, fragment_assertion_fails,
    fragment_entry_text, glsl_varyings, glsl_color_outputs, hlsl_varyings,
    hlsl_color_outputs, block_members, loose_varyings.
  destruct (m_glsl this).
  - destruct (m_use_glsl_binding_layout this),
      (m_supports_dual_source_blend this),
      (m_use_glsl_interface_blocks this), (IsVulkan this), fc, depth.
    all: cbn [andb negb].
    all: try (rewrite Z.leb_antisym; destruct (1 <? n)).
    all: cbn [negb bind Assert]; try reflexivity; cbv zeta; f_equal.
    all: try rewrite (for_u32_appends n _
           (fun i => "layout(location = 0, index = " ++ fmt_u i ++
                     ") out float4 o_col" ++ fmt_u i ++ ";" ++ nl)) by by_assoc.
    all: try rewrite (for_u32_appends n _
           (fun i => "layout(location = 0" ++ fmt_u i ++
                     ") out float4 o_col" ++ fmt_u i ++ ";" ++ nl)) by by_assoc.
    all: try rewrite (for_u32_appends n _
           (fun i => "out float4 o_col" ++ fmt_u i ++ ";" ++ nl)) by by_assoc.
    all: try rewrite (fold_left_appends _
           (fun '(q, n) => "  " ++ q ++ " " ++ n ++ ";" ++ nl))
           by (intros s [q x]; rewrite !app_assoc; reflexivity).
    all: try rewrite (fold_left_appends _
           (fun '(q, n) => q ++ " " ++ "in" ++ " " ++ n ++ ";" ++ nl))
           by (intros s [q x]; rewrite !app_assoc; reflexivity).
    all: try rewrite (for_u32_appends nt _
           (fun i => "  float2 v_tex" ++ fmt_u i ++ ";" ++ nl)) by by_assoc.
    all: try rewrite (for_u32_appends nc _
           (fun i => "  float4 v_col" ++ fmt_u i ++ ";" ++ nl)) by by_assoc.
    all: try rewrite (for_u32_appends nt _
           (fun i => "in" ++ " float2 v_tex" ++ fmt_u i ++ ";" ++ nl)) by by_assoc.
    all: try rewrite (for_u32_appends nc _
           (fun i => "in" ++ " float4 v_col" ++ fmt_u i ++ ";" ++ nl)) by by_assoc.
    all: rewrite !app_assoc; reflexivity.
  - cbn [andb]; cbv zeta; f_equal.
    rewrite (for_u32_appends n _
           (fun i => "  out float4 o_col" ++ fmt_u i ++ " : SV_Target" ++
                     fmt_u i ++
                     (if i =? (n - 1) mod UINT32_MOD then ")" else ",") ++ nl))
      by (intros i s; destruct (i =? (n - 1) mod UINT32_MOD);
          rewrite !app_assoc; reflexivity).
    destruct fc, depth; try destruct (n >? 0).
    all: rewrite (fold_left_counter_appends _
           (fun c '(q, x) => "  " ++ q ++ " " ++ "in" ++ " " ++ x ++
                             " : TEXCOORD" ++ fmt_u c ++ "," ++ nl))
           by (intros s c [q x]; rewrite !app_assoc; reflexivity).
    all: rewrite (for_u32_appends nt _
           (fun i => "  " ++ "in" ++ " float2 v_tex" ++ fmt_u i ++
                     " : TEXCOORD" ++ fmt_u i ++ "," ++ nl)) by by_assoc.
    all: rewrite (for_u32_appends nc _
           (fun i => "  " ++ "in" ++ " float4 v_col" ++ fmt_u i ++
                     " : COLOR" ++ fmt_u i ++ "," ++ nl)) by by_assoc.
    all: rewrite !app_assoc; reflexivity.
Qed.

(** *** What follows from the two texts *)

(** The fragment entry point stops at its assertion exactly when it writes
    GLSL with binding layout, dual-source blend is unsupported and more
    than one colour output is requested; it is never undefined. *)
Theorem fragment_assertion_iff this ss nc nt additional fc n depth :
  (DeclareFragmentEntryPoint this ss nc nt additional fc n depth = AssertFailed <->
   m_glsl this = true /\ m_use_glsl_binding_layout this = true /\
   m_supports_dual_source_blend this = false /\ 1 < n) /\
  DeclareFragmentEntryPoint this ss nc nt additional fc n depth <> Undefined.
Proof.
  rewrite fragment_entry_point_text; unfold fragment_assertion_fails.
  destruct (m_glsl this), (m_use_glsl_binding_layout this),
    (m_supports_dual_source_blend this), (Z.ltb_spec 1 n);
    cbn [andb negb]; split; try discriminate; split;
    try discriminate; try reflexivity; try tauto;
    intros (? & ? & ? & ?); try discriminate; lia.
Qed.

(** Both entry points only append: the text does not depend on what the
    stream holds, and neither does the assertion. *)
Theorem entry_points_append this ss attributes nc nt additional vid suffix
    fc n depth :
  DeclareVertexEntryPoint this ss attributes nc nt additional vid suffix =
    ss ++ DeclareVertexEntryPoint this "" attributes nc nt additional vid suffix /\
  DeclareFragmentEntryPoint this ss nc nt additional fc n depth =
    match DeclareFragmentEntryPoint this "" nc nt additional fc n depth with
    | Returned text => Returned (ss ++ text)
    | AssertFailed => AssertFailed
    | Undefined => Undefined
    end.
Proof.
  rewrite !vertex_entry_point_text, !fragment_entry_point_text.
  split; [reflexivity|].
  destruct (fragment_assertion_fails this n); reflexivity.
Qed.



(** The vertex attributes are numbered from 0 in list order, and what
    follows them is what the function writes without attributes. *)
Theorem vertex_attributes_numbered this ss attributes nc nt additional vid suffix :
  Z.of_nat (List.length attributes) <= UINT32_MOD ->
  let line (i : nat) (attribute : string) :=
    if m_glsl this then
      if m_use_glsl_binding_layout this
      then "layout(location = " ++ fmt_u (Z.of_nat i) ++ ") in " ++
           attribute ++ ";" ++ nl
      else "in " ++ attribute ++ ";" ++ nl
    else "  in " ++ attribute ++ " : ATTR" ++ fmt_u (Z.of_nat i) ++ "," ++ nl in
  let attribute_lines :=
    join (map (fun '(i, attribute) => line i attribute)
            (combine (seq 0 (List.length attributes)) attributes)) in
  DeclareVertexEntryPoint this ss attributes nc nt additional vid suffix =
  if m_glsl this then
    ss ++ attribute_lines ++
    DeclareVertexEntryPoint this "" [] nc nt additional vid suffix
  else
    ss ++ "void main(" ++ nl ++
    (if vid then "  in uint v_id : SV_VertexID," ++ nl else "") ++
    attribute_lines ++
    hlsl_varyings "out" nc nt additional ++
    "  out float4 v_pos : SV_Position)" ++ nl.
Proof.
  intros Hlen line attribute_lines; subst line attribute_lines.
  rewrite !vertex_entry_point_text; unfold vertex_entry_text.
  assert (Hnum : numbered 0 attributes =
                 map (fun '(i, a) => (Z.of_nat i, a))
                   (combine (seq 0 (List.length attributes)) attributes)).
  { rewrite numbered_consecutive by lia.
    rewrite (map_ext _ Z.of_nat) by (intro i; lia).
    apply combine_map_l. }
  assert (Hglsl :
    join (map (fun '(counter, attribute) =>
                 "layout(location = " ++ fmt_u counter ++ ") in " ++
                 attribute ++ ";" ++ nl) (numbered 0 attributes)) =
    join (map (fun '(i, attribute) =>
                 "layout(location = " ++ fmt_u (Z.of_nat i) ++ ") in " ++
                 attribute ++ ";" ++ nl)
            (combine (seq 0 (List.length attributes)) attributes))).
  { rewrite Hnum, map_map; f_equal; apply map_ext; intros [i a]; reflexivity. }
  assert (Hhlsl :
    join (map (fun '(counter, attribute) =>
                 "  in " ++ attribute ++ " : ATTR" ++ fmt_u counter ++ "," ++ nl)
            (numbered 0 attributes)) =
    join (map (fun '(i, attribute) =>
                 "  in " ++ attribute ++ " : ATTR" ++ fmt_u (Z.of_nat i) ++
                 "," ++ nl)
            (combine (seq 0 (List.length attributes)) attributes))).
  { rewrite Hnum, map_map; f_equal; apply map_ext; intros [i a]; reflexivity. }
  destruct (m_glsl this).
  - unfold glsl_attributes; destruct (m_use_glsl_binding_layout this).
    + rewrite Hglsl; reflexivity.
    + rewrite <- (map_combine_seq (fun a => "in " ++ a ++ ";" ++ nl) attributes 0).
      reflexivity.
  - unfold hlsl_attributes; rewrite Hhlsl; reflexivity.
Qed.

Lemma vertex_attributes_numbered_witness :
  DeclareVertexEntryPoint (generator Vulkan false true true "") ""
    ["float4 a_pos"; "float2 a_tex"] 0 0 [] false "" =
  ("layout(location = 0) in float4 a_pos;" ++ nl ++
   "layout(location = 1) in float2 a_tex;" ++ nl) ++
  DeclareVertexEntryPoint (generator Vulkan false true true "") ""
    [] 0 0 [] false "".
Proof.
  apply (vertex_attributes_numbered (generator Vulkan false true true "") ""
           ["float4 a_pos"; "float2 a_tex"] 0 0 [] false "").
  unfold UINT32_MOD; cbn; lia.
Defined.

(** The vertex entry point always ends with the function header: with
    [void main()] in GLSL and, in HLSL, with the [SV_Position] parameter
    and the closing parenthesis.  The GLSL fragment entry point ends with
    [void main()] whenever it returns. *)
Theorem entry_point_endings this ss attributes nc nt additional vid suffix
    fc n depth :
  (exists pre,
     DeclareVertexEntryPoint this ss attributes nc nt additional vid suffix =
     pre ++ (if m_glsl this then "void main()" ++ nl
             else "  out float4 v_pos : SV_Position)" ++ nl)) /\
  (m_glsl this = true ->
   fragment_assertion_fails this n = false ->
   exists pre,
     DeclareFragmentEntryPoint this ss nc nt additional fc n depth =
     Returned (pre ++ "void main()" ++ nl)).
Proof.
  rewrite vertex_entry_point_text, fragment_entry_point_text.
  unfold vertex_entry_text, fragment_entry_text; split.
  - destruct (m_glsl this).
    + exists (ss ++ glsl_attributes (m_use_glsl_binding_layout this) attributes ++
              glsl_varyings this "out" suffix nc nt additional ++
              "#define v_pos gl_Position" ++ nl ++ nl ++
              (if vid
               then (if IsVulkan this then "#define v_id uint(gl_VertexIndex)"
                     else "#define v_id uint(gl_VertexID)") ++ nl
               else "") ++ nl).
      rewrite !app_assoc; reflexivity.
    + exists (ss ++ "void main(" ++ nl ++
              (if vid then "  in uint v_id : SV_VertexID," ++ nl else "") ++
              hlsl_attributes attributes ++
              hlsl_varyings "out" nc nt additional).
      rewrite !app_assoc; reflexivity.
  - intros -> ->.
    exists (ss ++ glsl_varyings this "in" "" nc nt additional ++
            (if fc then "#define v_pos gl_FragCoord" ++ nl else "") ++
            (if depth then "#define o_depth gl_FragDepth" ++ nl else "") ++
            glsl_color_outputs this n ++ nl).
    f_equal; rewrite !app_assoc; reflexivity.
Qed.

Lemma fragment_assertion_iff_witness :
  DeclareFragmentEntryPoint (generator OpenGLES false true true "") ""
    1 0 [] true 3 false = AssertFailed.
Proof.
  apply (fragment_assertion_iff (generator OpenGLES false true true "") ""
           1 0 [] true 3 false).
  repeat split; lia.
Defined.

Lemma entry_point_endings_witness :
  exists pre,
    DeclareFragmentEntryPoint (generator OpenGL true false false "") ""
      0 1 [] false 2 true =
    Returned (pre ++ "void main()" ++ nl).
Proof.
  apply (entry_point_endings (generator OpenGL true false false "") ""
           [] 0 1 [] false "" false 2 true); reflexivity.
Defined.

(** ** Declarations and assembled shaders *)

(** The text of a uniform buffer declaration. *)
Lemma uniform_buffer_text this ss members pc :
  DeclareUniformBuffer this ss members pc =
    ss ++ uniform_buffer_heading this pc ++ nl ++ "{" ++ nl ++
    join (map (fun member => member ++ ";" ++ nl) members) ++
    "};" ++ nl ++ nl /\
  all_chars not_LF (uniform_buffer_heading this pc) = true /\
  prefix "layout(push_constant)" (uniform_buffer_heading this pc) =
    IsVulkan this && pc /\
  prefix "cbuffer" (uniform_buffer_heading this pc) =
    negb (IsVulkan this) && negb (m_glsl this).
Proof.
  unfold DeclareUniformBuffer, WriteUniformBufferDeclaration,
    uniform_buffer_heading.
  rewrite (fold_left_appends _ (fun member => member ++ ";" ++ nl)) by by_assoc.
  destruct (IsVulkan this), pc, (m_glsl this), (m_use_glsl_binding_layout this);
    (split; [rewrite !app_assoc; reflexivity | repeat split]).
Qed.

(** A uniform buffer declaration is one heading line, an opening brace,
    the members in list order, each followed by a semicolon and a line
    feed, and the closing [};] with an empty line.  The heading is the
    push-constant one exactly on Vulkan with the flag set, and the
    [cbuffer] one exactly when the dialect is HLSL. *)
Theorem uniform_buffer_block this ss members pc :
  DeclareUniformBuffer this ss members pc =
    ss ++ uniform_buffer_heading this pc ++ nl ++ "{" ++ nl ++
    join (map (fun member => member ++ ";" ++ nl) members) ++
    "};" ++ nl ++ nl /\
  all_chars not_LF (uniform_buffer_heading this pc) = true /\
  prefix "layout(push_constant)" (uniform_buffer_heading this pc) =
    IsVulkan this && pc /\
  prefix "cbuffer" (uniform_buffer_heading this pc) =
    negb (IsVulkan this) && negb (m_glsl this).
Proof. apply uniform_buffer_text. Qed.

(** Arguments without effect: the push-constant flag outside Vulkan, the
    texture index in GLSL without any binding qualifier, and the
    signedness of a texel buffer that is not an integer one. *)
Theorem declaration_arguments_without_effect this ss :
  (IsVulkan this = false ->
   forall members pc,
     DeclareUniformBuffer this ss members pc =
     DeclareUniformBuffer this ss members false) /\
  (m_glsl this = true -> IsVulkan this = false ->
   m_use_glsl_binding_layout this = false ->
   forall name index index' is_int is_unsigned,
     DeclareTexture this ss name index = DeclareTexture this ss name index' /\
     DeclareTextureBuffer this ss name index is_int is_unsigned =
     DeclareTextureBuffer this ss name index' is_int is_unsigned) /\
  (forall name index is_unsigned is_unsigned',
     DeclareTextureBuffer this ss name index false is_unsigned =
     DeclareTextureBuffer this ss name index false is_unsigned').
Proof.
  split; [|split].
  - intros Hv members pc.
    unfold DeclareUniformBuffer, WriteUniformBufferDeclaration; now rewrite Hv.
  - intros Hg Hv Hb name index index' is_int is_unsigned.
    unfold DeclareTexture, DeclareTextureBuffer; rewrite Hg, Hv, Hb.
    split; reflexivity.
  - intros name index u u'; unfold DeclareTextureBuffer; reflexivity.
Qed.

Lemma declaration_arguments_without_effect_witness :
  DeclareUniformBuffer (generator D3D11 false false false "") ""
    ["float4 u_fill_color"] true =
  DeclareUniformBuffer (generator D3D11 false false false "") ""
    ["float4 u_fill_color"] false.
Proof.
  apply (declaration_arguments_without_effect
           (generator D3D11 false false false "") "").
  reflexivity.
Defined.

(** The texture declaration only appends. *)
Lemma texture_appends this ss name index :
  DeclareTexture this ss name index = ss ++ DeclareTexture this "" name index.
Proof.
  unfold DeclareTexture.
  destruct (m_glsl this), (IsVulkan this), (m_use_glsl_binding_layout this);
    rewrite !app_assoc; reflexivity.
Qed.

(** The three declarations only append, and what they append does not
    depend on what the stream holds. *)
Theorem declarations_append this ss members pc name index is_int is_unsigned :
  DeclareUniformBuffer this ss members pc =
    ss ++ DeclareUniformBuffer this "" members pc /\
  DeclareTexture this ss name index = ss ++ DeclareTexture this "" name index /\
  DeclareTextureBuffer this ss name index is_int is_unsigned =
    ss ++ DeclareTextureBuffer this "" name index is_int is_unsigned.
Proof.
  split; [|split].
  - destruct (uniform_buffer_text this ss members pc) as [-> _].
    destruct (uniform_buffer_text this "" members pc) as [-> _].
    reflexivity.
  - apply texture_appends.
  - unfold DeclareTextureBuffer.
    destruct (m_glsl this), (IsVulkan this), (m_use_glsl_binding_layout this);
      rewrite !app_assoc; reflexivity.
Qed.

(** The text of the three assembled shaders. *)
Lemma assembled_shaders_text gl this :
  GenerateScreenQuadVertexShader gl this =
    WriteHeader gl this "" ++
    vertex_entry_text this [] 0 1 [] true default_output_block_suffix ++
    screen_quad_body /\
  GenerateFillFragmentShader gl this =
    Returned (WriteHeader gl this "" ++
              DeclareUniformBuffer this "" ["float4 u_fill_color"] true ++
              fragment_entry_text this 0 1 [] false 1 true ++
              fill_body) /\
  GenerateCopyFragmentShader gl this =
    Returned (WriteHeader gl this "" ++
              DeclareUniformBuffer this "" ["float4 u_src_rect"] true ++
              DeclareTexture this "" "samp0" 0 ++
              fragment_entry_text this 0 1 [] false 1 false ++
              copy_body).
Proof.
  assert (Hone : fragment_assertion_fails this 1 = false).
  { unfold fragment_assertion_fails; cbn [Z.ltb Z.compare Pos.compare Pos.compare_cont].
    now rewrite andb_false_r. }
  unfold GenerateScreenQuadVertexShader, GenerateFillFragmentShader,
    GenerateCopyFragmentShader; cbv zeta.
  set (header := WriteHeader gl this ""); clearbody header.
  rewrite vertex_entry_point_text, !fragment_entry_point_text, Hone.
  cbn [bind].
  rewrite texture_appends.
  destruct (uniform_buffer_text this header ["float4 u_fill_color"] true) as [-> _].
  destruct (uniform_buffer_text this "" ["float4 u_fill_color"] true) as [-> _].
  destruct (uniform_buffer_text this header ["float4 u_src_rect"] true) as [-> _].
  destruct (uniform_buffer_text this "" ["float4 u_src_rect"] true) as [-> _].
  unfold screen_quad_body, fill_body, copy_body, y_flip_block.
  split; [|split].
  - rewrite !app_assoc; reflexivity.
  - apply f_equal; rewrite !app_assoc; reflexivity.
  - apply f_equal; rewrite !app_assoc; reflexivity.
Qed.

(** Each assembled shader is the header, the declarations, the entry point
    and the body, in this order, whatever the state of the generator; none
    stops at the assertion, since each asks for one colour output. *)
Theorem assembled_shaders_compose gl this :
  GenerateScreenQuadVertexShader gl this =
    WriteHeader gl this "" ++
    vertex_entry_text this [] 0 1 [] true default_output_block_suffix ++
    screen_quad_body /\
  GenerateFillFragmentShader gl this =
    Returned (WriteHeader gl this "" ++
              DeclareUniformBuffer this "" ["float4 u_fill_color"] true ++
              fragment_entry_text this 0 1 [] false 1 true ++
              fill_body) /\
  GenerateCopyFragmentShader gl this =
    Returned (WriteHeader gl this "" ++
              DeclareUniformBuffer this "" ["float4 u_src_rect"] true ++
              DeclareTexture this "" "samp0" 0 ++
              fragment_entry_text this 0 1 [] false 1 false ++
              copy_body).
Proof. apply assembled_shaders_text. Qed.

(** A prefix occurs in the text. *)
Lemma contains_prefix (pat s : string) :
  prefix pat s = true -> contains pat s = true.
Proof. intro H; destruct s; simpl; simpl in H; rewrite H; reflexivity. Qed.

(** The texture declaration of the copy shader, which follows the uniform
    block directly. *)
Theorem copy_shader_texture gl api dsb g lg gl' :
  new_ShaderGen gl api dsb = Returned (g, lg) ->
  let declaration :=
    match api with
    | D3D11 => "Texture2D samp0 : register(t0);" ++ nl ++
               "SamplerState samp0_ss : register(s0);" ++ nl
    | Vulkan => "layout(set = 0, binding = 1) uniform sampler2D samp0;" ++ nl
    | _ => (if UseGLSLBindingLayout gl then "layout(binding = 0) " else "") ++
           "uniform sampler2D samp0;" ++ nl
    end in
  exists text,
    GenerateCopyFragmentShader gl' g = Returned text /\
    contains ("};" ++ nl ++ nl ++ declaration) text = true.
Proof.
  intros H declaration.
  destruct (assembled_shaders_text gl' g) as (_ & _ & ->).
  eexists; split; [reflexivity|].
  destruct (uniform_buffer_text g "" ["float4 u_src_rect"] true) as [-> _].
  remember (WriteHeader gl' g "") as header eqn:Hheader; clear Hheader.
  remember (fragment_entry_text g 0 1 [] false 1 false ++ copy_body)
    as rest eqn:Hrest.
  remember (uniform_buffer_heading g true) as heading eqn:Hheading.
  assert (Htex : DeclareTexture g "" "samp0" 0 = declaration).
  { subst declaration; destruct api.
    - rewrite new_ShaderGen_D3D11 in H; injection H as <- _; reflexivity.
    - rewrite new_ShaderGen_Vulkan in H; injection H as <- _; reflexivity.
    - destruct (new_ShaderGen_GL gl OpenGL dsb g lg (or_introl eq_refl) H)
        as (M & m & ->).
      unfold DeclareTexture; cbn [generator m_glsl m_render_api IsVulkan
        RenderAPI_eqb negb m_use_glsl_binding_layout].
      destruct (UseGLSLBindingLayout gl); reflexivity.
    - destruct (new_ShaderGen_GL gl OpenGLES dsb g lg (or_intror eq_refl) H)
        as (M & m & ->).
      unfold DeclareTexture; cbn [generator m_glsl m_render_api IsVulkan
        RenderAPI_eqb negb m_use_glsl_binding_layout].
      destruct (UseGLSLBindingLayout gl); reflexivity. }
  rewrite Htex; clear Htex Hheading Hrest H.
  cbn [map join].
  rewrite !app_assoc.
  do 9 apply contains_app_l.
  rewrite <- !app_assoc.
  apply contains_prefix, prefix_app.
Qed.

Lemma copy_shader_texture_witness :
  exists text,
    GenerateCopyFragmentShader (context OpenGL 4 6 "4.60")
      (generator OpenGL false true true "#version 430") = Returned text /\
    contains ("};" ++ nl ++ nl ++
              "layout(binding = 0) uniform sampler2D samp0;" ++ nl) text = true.
Proof.
  exact (copy_shader_texture (context OpenGL 4 6 "4.60") OpenGL false
           (generator OpenGL false true true "#version 430") []
           (context OpenGL 4 6 "4.60") eq_refl).
Defined.

(** With dual-source blend every number of colour outputs is accepted, and
    output [i] is declared at location 0 with index [i]. *)
Theorem dual_source_outputs this ss nc nt additional fc n depth :
  m_glsl this = true ->
  m_use_glsl_binding_layout this = true ->
  m_supports_dual_source_blend this = true ->
  exists pre,
    DeclareFragmentEntryPoint this ss nc nt additional fc n depth =
    Returned
      (pre ++
       join (map (fun i => "layout(location = 0, index = " ++ fmt_u i ++
                           ") out float4 o_col" ++ fmt_u i ++ ";" ++ nl)
               (u32_range n)) ++
       nl ++ "void main()" ++ nl).
Proof.
  intros Hg Hb Hd.
  rewrite fragment_entry_point_text.
  unfold fragment_assertion_fails, fragment_entry_text, glsl_color_outputs.
  rewrite Hg, Hb, Hd; cbn [andb negb].
  exists (ss ++ glsl_varyings this "in" "" nc nt additional ++
          (if fc then "#define v_pos gl_FragCoord" ++ nl else "") ++
          (if depth then "#define o_depth gl_FragDepth" ++ nl else "")).
  apply f_equal; rewrite !app_assoc; reflexivity.
Qed.

Lemma dual_source_outputs_witness :
  exists pre,
    DeclareFragmentEntryPoint (generator Vulkan true true true "") ""
      0 1 [] false 2 false =
    Returned
      (pre ++
       ("layout(location = 0, index = 0) out float4 o_col0;" ++ nl ++
        "layout(location = 0, index = 1) out float4 o_col1;" ++ nl) ++
       nl ++ "void main()" ++ nl).
Proof.
  exact (dual_source_outputs (generator Vulkan true true true "") ""
           0 1 [] false 2 false eq_refl eq_refl eq_refl).
Defined.

(** ** Sample runs of the fallback and of the HLSL parameter list *)

Lemma embedded_fallback_witness :
  SetGLSLVersionString (driver_reporting (Some "OpenGL ES GLSL ES"))
    (generator OpenGLES false false false "") =
  Returned
    (generator OpenGLES false false false "#version 300 es",
     ["Invalid GLSL version string: 'OpenGL ES GLSL ES' ('')"]).
Proof.
  apply (embedded_fallback (driver_reporting (Some "OpenGL ES GLSL ES"))
           (generator OpenGLES false false false "")
           "OpenGL ES GLSL ES" (-1) 0 0 eq_refl eq_refl eq_refl).
  discriminate.
Defined.

Lemma desktop_fallback_never_130_witness :
  m_glsl_version_string (generator OpenGL false false false "#version 300") =
  "#version " ++ fmt_d 3 ++ "00".
Proof.
  apply (desktop_fallback_never_130 (driver_reporting (Some "GLSL 3"))
           (generator OpenGL false false false "") "GLSL 3" 1 3 0
           (generator OpenGL false false false "#version 300")
           ["Invalid GLSL version string: 'GLSL 3' ('3')"]
           eq_refl eq_refl eq_refl).
  - discriminate.
  - reflexivity.
Defined.

Lemma hlsl_parameter_list_closed_witness :
  exists pre,
    DeclareFragmentEntryPoint (generator D3D11 false false false "") ""
      1 1 [] true 2 true =
    Returned (pre ++ ")" ++ nl).
Proof.
  apply (hlsl_parameter_list_closed (generator D3D11 false false false "") ""
           1 1 [] true 2 true eq_refl).
  left; unfold UINT32_MOD; cbn; lia.
Defined.
